(** * Smart Calorie Tracker: the formula engine, the daily aggregation and
      the goal evaluation of [main.py], embedded in Rocq.

    Numbers.  Python [float] values and MySQL [DECIMAL] values are embedded as
    exact rationals ([Q]); Python [int] values as [Z].  Binary rounding of
    floating-point operations and the range and scale limits of the DECIMAL
    columns are outside this model: every arithmetic step is exact, and the
    only roundings are the ones the program asks for ([round], [int]).
    Rational results are compared with [==] ([Qeq]).

    Effects.  A function that can raise returns a [Py.result]; the database
    behind [self.connection] is a record of tables (lists of rows) passed
    explicitly; the lines typed at the console are a list of strings. *)

From Stdlib Require Import ZArith QArith Qround Qabs Lqa Lia.
From Stdlib Require Import List String Ascii Bool Permutation.
Import ListNotations.

Open Scope Q_scope.

(* ====================================================================== *)
(** * Part I.  The model                                                    *)
(* ====================================================================== *)

(** ** Python values and built-ins *)

Module Py.

(** The exceptions the modelled code can let escape. *)
Inductive exn : Set :=
| TypeError
| KeyError
| IndexError
| ZeroDivisionError
| EOFError.

Inductive result (A : Type) : Type :=
| Ok (a : A)
| Raise (e : exn).
Arguments Ok {A} a.
Arguments Raise {A} e.

Definition bind {A B : Type} (m : result A) (k : A -> result B) : result B :=
  match m with
  | Ok a => k a
  | Raise e => Raise e
  end.

(** Strict [<] on rationals, as a boolean. *)
Definition Qltb (x y : Q) : bool :=
  match x ?= y with
  | Lt => true
  | _ => false
  end.

(** [int(x)] on a float: truncation toward zero. *)
Definition int (x : Q) : Z := Z.quot (Qnum x) (Zpos (Qden x)).

(** [round(x)] on a float: nearest integer, ties to the even one. *)
Definition round (x : Q) : Z :=
  let f := Qfloor x in
  match ((x - inject_Z f) ?= (1 # 2))%Q with
  | Lt => f
  | Gt => (f + 1)%Z
  | Eq => if Z.even f then f else (f + 1)%Z
  end.

(** [round(x, ndigits)]: [x] rounded to [ndigits] decimal places. *)
Definition round_ndigits (x : Q) (ndigits : nat) : Q :=
  let scale := inject_Z (10 ^ Z.of_nat ndigits) in
  inject_Z (round (x * scale)) / scale.

(** [max(a, b)]: the first of the largest arguments. *)
Definition max (a b : Q) : Q := if Qltb a b then b else a.

(** [abs(x)]. *)
Definition abs (x : Q) : Q := Qabs x.

(** [str.lower()], on the ASCII letters. *)
Definition ascii_lower (c : ascii) : ascii :=
  let n := nat_of_ascii c in
  if ((65 <=? n) && (n <=? 90))%nat then ascii_of_nat (n + 32) else c.

Fixpoint lower (s : string) : string :=
  match s with
  | EmptyString => EmptyString
  | String c s' => String (ascii_lower c) (lower s')
  end.

(** [str.strip()]: leading and trailing ASCII white space removed. *)
Definition is_space (c : ascii) : bool :=
  let n := nat_of_ascii c in
  ((n =? 32) || ((9 <=? n) && (n <=? 13)) || ((28 <=? n) && (n <=? 31)))%nat.

Fixpoint lstrip (s : string) : string :=
  match s with
  | EmptyString => EmptyString
  | String c s' => if is_space c then lstrip s' else s
  end.

Fixpoint rstrip (s : string) : string :=
  match s with
  | EmptyString => EmptyString
  | String c s' =>
      match rstrip s' with
      | EmptyString => if is_space c then EmptyString else String c EmptyString
      | t => String c t
      end
  end.

Definition strip (s : string) : string := rstrip (lstrip s).

(** A [dict] with string keys, in insertion order. *)
Definition dict (V : Type) : Type := list (string * V).

(** [d.get(key, default)]. *)
Fixpoint get {V : Type} (d : dict V) (key : string) (default : V) : V :=
  match d with
  | [] => default
  | (k, v) :: d' => if String.eqb k key then v else get d' key default
  end.

(** [d[key]]: raises [KeyError] on a missing key. *)
Fixpoint getitem {V : Type} (d : dict V) (key : string) : result V :=
  match d with
  | [] => Raise KeyError
  | (k, v) :: d' => if String.eqb k key then Ok v else getitem d' key
  end.

Definition keys {V : Type} (d : dict V) : list string := map fst d.

(** [x in xs] on a list of strings. *)
Definition contains (xs : list string) (x : string) : bool :=
  existsb (String.eqb x) xs.

(** [xs[i]] on a list: negative indices count from the end. *)
Definition index {A : Type} (xs : list A) (i : Z) : result A :=
  let n := Z.of_nat (List.length xs) in
  let j := if (i <? 0)%Z then (i + n)%Z else i in
  if ((0 <=? j) && (j <? n))%Z then
    match nth_error xs (Z.to_nat j) with
    | Some x => Ok x
    | None => Raise IndexError
    end
  else Raise IndexError.

End Py.

Notation "x <- m ;; k" := (Py.bind m (fun x => k))
  (at level 61, m at next level, right associativity).

(** ** Configuration ([class Config]) *)

Module Config.

Definition ACTIVITY_MULTIPLIERS : Py.dict Q :=
  [ ("Sedentary"%string, 1.2);
    ("Light"%string, 1.375);
    ("Moderate"%string, 1.55);
    ("Active"%string, 1.725);
    ("Very Active"%string, 1.9) ].

Definition BMI_CATEGORIES : Py.dict (Q * Q) :=
  [ ("Underweight"%string, (0, 18.5));
    ("Normal"%string, (18.5, 25));
    ("Overweight"%string, (25, 30));
    ("Obese"%string, (30, 100)) ].

Definition GOAL_CALORIE_ADJUSTMENT : Py.dict Z :=
  [ ("lose"%string, (-500)%Z);
    ("maintain"%string, 0%Z);
    ("gain"%string, 300%Z) ].

Definition MEAL_TYPES : list string :=
  [ "Breakfast"%string; "Lunch"%string; "Dinner"%string; "Snack"%string ].

End Config.

(** ** Console input *)

(** [get_choice(prompt, options)]: reads lines until one, stripped, is one of
    the options.  The lines still to be typed are the state; [input()] on an
    exhausted console raises [EOFError]. *)
Fixpoint get_choice (inputs : list string) (options : list string)
  : Py.result (string * list string) :=
  match inputs with
  | [] => Py.Raise Py.EOFError
  | line :: rest =>
      let choice := Py.strip line in
      if Py.contains options choice then Py.Ok (choice, rest)
      else get_choice rest options
  end.

(** ** Calculations (the static methods) *)

(** [calculate_bmr_static]: Mifflin-St Jeor. *)
Definition calculate_bmr_static (weight height : Q) (age : Z) (gender : string)
  : Q :=
  let bmr :=
    if String.eqb (Py.lower gender) "male" then
      (10 * weight) + (6.25 * height) - (5 * inject_Z age) + 5
    else
      (10 * weight) + (6.25 * height) - (5 * inject_Z age) - 161 in
  Py.round_ndigits bmr 2.

(** [calculate_bmi]: weight(kg) / height(m)^2; the division raises when the
    squared height is zero. *)
Definition calculate_bmi (weight height : Q) : Py.result Q :=
  let height_m := height / 100 in
  if Qeq_bool (height_m ^ 2) 0 then Py.Raise Py.ZeroDivisionError
  else
    let bmi := weight / (height_m ^ 2) in
    Py.Ok (Py.round_ndigits bmi 2).

(** [get_bmi_category]: the [for] loop over [Config.BMI_CATEGORIES.items()],
    returning at the first range that holds the value. *)
Fixpoint first_bmi_category (items : Py.dict (Q * Q)) (bmi : Q) : string :=
  match items with
  | [] => "Unknown"
  | (category, (min_bmi, max_bmi)) :: items' =>
      if Qle_bool min_bmi bmi && Py.Qltb bmi max_bmi then category
      else first_bmi_category items' bmi
  end.

Definition get_bmi_category (bmi : Q) : string :=
  first_bmi_category Config.BMI_CATEGORIES bmi.

(** ** The database

    One record per table of [setup_database], with the columns the modelled
    methods read or write.  A nullable column is an [option]. *)

Definition date : Set := Z.   (* a [datetime.date], as its day number *)

Module Users.
Record row : Set := mk {
  user_id : Z;
  age : option Z;
  gender : string;
  height_cm : option Q;
  weight_kg : option Q;
  activity_level : string;
  daily_calorie_goal : option Z
}.

Definition set_weight_kg (r : row) (w : Q) : row :=
  mk (user_id r) (age r) (gender r) (height_cm r) (Some w)
     (activity_level r) (daily_calorie_goal r).
End Users.

Module Foods.
Record row : Set := mk {
  food_id : Z;
  food_name : string;
  calories_per_100g : option Q;
  protein_g : option Q;
  carbs_g : option Q;
  fat_g : option Q
}.
End Foods.

Module Intake.
Record row : Set := mk {
  user_id : Z;
  food_id : Z;
  quantity_g : Q;
  intake_date : date;
  meal_type : string
}.

(** [UNIQUE KEY unique_intake (user_id, food_id, intake_date, meal_type)]. *)
Definition same_key (a b : row) : bool :=
  (user_id a =? user_id b)%Z && (food_id a =? food_id b)%Z
  && (intake_date a =? intake_date b)%Z
  && String.eqb (meal_type a) (meal_type b).

Definition set_quantity_g (r : row) (q : Q) : row :=
  mk (user_id r) (food_id r) q (intake_date r) (meal_type r).
End Intake.

Module Weights.
Record row : Set := mk {
  user_id : Z;
  weight_kg : Q;
  bmi : option Q;
  recorded_date : date
}.

(** [recorded_date DATE UNIQUE NOT NULL]: the only unique key besides the
    auto-increment id is the date alone. *)
Definition same_key (a b : row) : bool :=
  (recorded_date a =? recorded_date b)%Z.

Definition set_weight_bmi (r : row) (w : Q) (b : option Q) : row :=
  mk (user_id r) w b (recorded_date r).
End Weights.

Record db : Set := mk_db {
  users : list Users.row;
  food_items : list Foods.row;
  daily_intake : list Intake.row;
  weight_tracking : list Weights.row
}.

(** The session: [self.connection] and [self.current_user], the latter the
    dictionary [login_user] builds (its ['user_id'] entry). *)
Record app : Set := mk_app {
  connection : db;
  current_user : option Z
}.

(** *** SQL statements *)

(** [SELECT ... FROM users WHERE user_id = %s] followed by [fetchone()]. *)
Definition select_user (d : db) (uid : Z) : option Users.row :=
  find (fun u => (Users.user_id u =? uid)%Z) (users d).

(** [SELECT * FROM food_items WHERE food_id = %s] followed by [fetchone()]. *)
Definition select_food (d : db) (fid : Z) : option Foods.row :=
  find (fun f => (Foods.food_id f =? fid)%Z) (food_items d).

(** [UPDATE users SET weight_kg = %s WHERE user_id = %s]. *)
Definition update_user_weight (us : list Users.row) (w : Q) (uid : Z)
  : list Users.row :=
  map (fun u => if (Users.user_id u =? uid)%Z then Users.set_weight_kg u w else u)
      us.

(** [INSERT INTO weight_tracking ... ON DUPLICATE KEY UPDATE
    weight_kg = VALUES(weight_kg), bmi = VALUES(bmi)]. *)
Fixpoint upsert_weight (rows : list Weights.row) (new : Weights.row)
  : list Weights.row :=
  match rows with
  | [] => [new]
  | r :: rows' =>
      if Weights.same_key r new then
        Weights.set_weight_bmi r (Weights.weight_kg new) (Weights.bmi new) :: rows'
      else r :: upsert_weight rows' new
  end.

(** [INSERT INTO daily_intake ... ON DUPLICATE KEY UPDATE
    quantity_g = quantity_g + VALUES(quantity_g)]. *)
Fixpoint upsert_intake (rows : list Intake.row) (new : Intake.row)
  : list Intake.row :=
  match rows with
  | [] => [new]
  | r :: rows' =>
      if Intake.same_key r new then
        Intake.set_quantity_g r (Intake.quantity_g r + Intake.quantity_g new)
        :: rows'
      else r :: upsert_intake rows' new
  end.

(** SQL arithmetic on nullable values: NULL is absorbing. *)
Definition sql_mul (a b : option Q) : option Q :=
  match a, b with
  | Some x, Some y => Some (x * y)
  | _, _ => None
  end.

Definition sql_div (a b : option Q) : option Q :=
  match a, b with
  | Some x, Some y => if Qeq_bool y 0 then None else Some (x / y)
  | _, _ => None
  end.

(** [SUM(...)]: NULL inputs are skipped; NULL when no input is left. *)
Fixpoint sql_sum (vs : list (option Q)) : option Q :=
  match vs with
  | [] => None
  | None :: vs' => sql_sum vs'
  | Some v :: vs' =>
      match sql_sum vs' with
      | None => Some v
      | Some s => Some (v + s)
      end
  end.

(** [FROM daily_intake T1 JOIN food_items T2 ON T1.food_id = T2.food_id
     WHERE T1.user_id = %s AND T1.intake_date = %s]. *)
Definition intake_join_food (d : db) : list (Intake.row * Foods.row) :=
  flat_map
    (fun t1 =>
       map (pair t1)
           (filter (fun t2 => (Intake.food_id t1 =? Foods.food_id t2)%Z)
                   (food_items d)))
    (daily_intake d).

Definition intake_of_day (d : db) (uid : Z) (day : date)
  : list (Intake.row * Foods.row) :=
  filter
    (fun '(t1, _) =>
       (Intake.user_id t1 =? uid)%Z && (Intake.intake_date t1 =? day)%Z)
    (intake_join_food d).

(** [SUM(T1.quantity_g * (T2.<column> / 100))] over the selected rows. *)
Definition sum_scaled (column : Foods.row -> option Q)
           (rows : list (Intake.row * Foods.row)) : option Q :=
  sql_sum
    (map (fun '(t1, t2) =>
            sql_mul (Some (Intake.quantity_g t1))
                    (sql_div (column t2) (Some 100)))
         rows).

(** [float(v)] on a fetched value: [None] is a [TypeError]. *)
Definition py_float (v : option Q) : Py.result Q :=
  match v with
  | Some x => Py.Ok x
  | None => Py.Raise Py.TypeError
  end.

(** [int(v)] on a fetched integer. *)
Definition py_int (v : option Z) : Py.result Z :=
  match v with
  | Some x => Py.Ok x
  | None => Py.Raise Py.TypeError
  end.

(** ** Calculations from the database *)

(** [calculate_bmr]: [None] for an unknown user, otherwise the static formula
    on the stored profile. *)
Definition calculate_bmr (d : db) (user_id : Z) : Py.result (option Q) :=
  match select_user d user_id with
  | None => Py.Ok None
  | Some user =>
      weight <- py_float (Users.weight_kg user) ;;
      height <- py_float (Users.height_cm user) ;;
      age <- py_int (Users.age user) ;;
      Py.Ok (Some (calculate_bmr_static weight height age (Users.gender user)))
  end.

(** The two lines
    [multiplier = Config.ACTIVITY_MULTIPLIERS.get(user['activity_level'], 1.2)]
    and [tdee = bmr * multiplier] of [calculate_daily_calories]. *)
Definition calculate_daily_calories_tdee (bmr : Q) (activity_level : string) : Q :=
  let multiplier := Py.get Config.ACTIVITY_MULTIPLIERS activity_level 1.2 in
  bmr * multiplier.

(** [if user['daily_calorie_goal']:] a NULL and a zero are both false. *)
Definition truthy_int (v : option Z) : bool :=
  match v with
  | None => false
  | Some n => negb (n =? 0)%Z
  end.

(** [calculate_daily_calories]. *)
Definition calculate_daily_calories (d : db) (user_id : Z)
  : Py.result (option Z) :=
  match select_user d user_id with
  | None => Py.Ok None
  | Some user =>
      if truthy_int (Users.daily_calorie_goal user) then
        goal <- py_int (Users.daily_calorie_goal user) ;;
        Py.Ok (Some goal)
      else
        bmr <- calculate_bmr d user_id ;;
        match bmr with
        | None => Py.Ok None
        | Some bmr =>
            let tdee :=
              calculate_daily_calories_tdee bmr (Users.activity_level user) in
            Py.Ok (Some (Py.round tdee))
        end
  end.

(** ** Registration ([register_user]) *)

(** The menus of [register_user]: the options of [get_choice] and the
    dictionary literal indexed by the choice. *)
Definition gender_menu : Py.dict string :=
  [ ("1", "Male"); ("2", "Female"); ("3", "Other") ]%string.

Definition activity_menu : Py.dict string :=
  [ ("1", "Sedentary"); ("2", "Light"); ("3", "Moderate"); ("4", "Active");
    ("5", "Very Active") ]%string.

Definition goal_menu : Py.dict string :=
  [ ("1", "lose"); ("2", "maintain"); ("3", "gain") ]%string.

(** [choice = get_choice(prompt, options); value = {...}[choice]]. *)
Definition choose (inputs : list string) (options : list string)
           (menu : Py.dict string) : Py.result (string * list string) :=
  r <- get_choice inputs options ;;
  value <- Py.getitem menu (fst r) ;;
  Py.Ok (value, snd r).

Definition choose_gender (inputs : list string) :=
  choose inputs [ "1"; "2"; "3" ]%string gender_menu.

Definition choose_activity_level (inputs : list string) :=
  choose inputs [ "1"; "2"; "3"; "4"; "5" ]%string activity_menu.

Definition choose_goal_type (inputs : list string) :=
  choose inputs [ "1"; "2"; "3" ]%string goal_menu.

(** [multiplier = Config.ACTIVITY_MULTIPLIERS[activity_level]] and
    [tdee = bmr * multiplier]. *)
Definition register_user_tdee (bmr : Q) (activity_level : string)
  : Py.result Q :=
  multiplier <- Py.getitem Config.ACTIVITY_MULTIPLIERS activity_level ;;
  Py.Ok (bmr * multiplier).

(** [daily_calorie_goal = int(tdee + Config.GOAL_CALORIE_ADJUSTMENT[goal_type])]. *)
Definition register_user_daily_calorie_goal (tdee : Q) (goal_type : string)
  : Py.result Z :=
  adjustment <- Py.getitem Config.GOAL_CALORIE_ADJUSTMENT goal_type ;;
  Py.Ok (Py.int (tdee + inject_Z adjustment)).

(** The block "Calculate daily calorie goal" of [register_user]. *)
Definition register_user_goal (weight height : Q) (age : Z)
           (gender activity_level goal_type : string) : Py.result Z :=
  let bmr := calculate_bmr_static weight height age gender in
  tdee <- register_user_tdee bmr activity_level ;;
  register_user_daily_calorie_goal tdee goal_type.

(** ** Weight tracking *)

(** [not user['height_cm']]: a NULL and a zero height are both false. *)
Definition truthy_decimal (v : option Q) : bool :=
  match v with
  | None => false
  | Some x => negb (Qeq_bool x 0)
  end.

(** [add_weight_entry_internal]: does nothing for an unknown user or a
    missing height; otherwise upserts the day's entry and sets the profile
    weight. *)
Definition add_weight_entry_internal (d : db) (user_id : Z) (weight : Q)
           (recorded_date : date) : Py.result db :=
  match select_user d user_id with
  | None => Py.Ok d
  | Some user =>
      if negb (truthy_decimal (Users.height_cm user)) then Py.Ok d
      else
        height <- py_float (Users.height_cm user) ;;
        bmi <- calculate_bmi weight height ;;
        let tracking :=
          upsert_weight (weight_tracking d)
                        (Weights.mk user_id weight (Some bmi) recorded_date) in
        let users' := update_user_weight (users d) weight user_id in
        Py.Ok (mk_db users' (food_items d) (daily_intake d) tracking)
  end.

(** ** Daily intake logging *)

(** [log_daily_intake].  Its arguments after the session are what the prompts
    returned: the food id, the quantity, [int(meal_choice_idx)] and the date
    ([None] when no date was given). *)
Definition log_daily_intake (a : app) (today : date) (food_id : Z)
           (quantity : Q) (meal_choice_idx : Z) (intake_date : option date)
  : Py.result app :=
  match current_user a with
  | None => Py.Ok a
  | Some uid =>
      match select_food (connection a) food_id with
      | None => Py.Ok a
      | Some food =>
          meal_type <- Py.index Config.MEAL_TYPES (meal_choice_idx - 1) ;;
          match intake_date with
          | None => Py.Ok a
          | Some day =>
              if (today <? day)%Z then Py.Ok a
              else
                let d := connection a in
                let intake :=
                  upsert_intake (daily_intake d)
                                (Intake.mk uid food_id quantity day meal_type) in
                Py.Ok (mk_app (mk_db (users d) (food_items d) intake
                                     (weight_tracking d))
                              (current_user a))
          end
      end
  end.

(** ** Reporting *)

Record summary : Set := mk_summary {
  total_calories : Q;
  total_protein : Q;
  total_carbs : Q;
  total_fat : Q
}.

(** [get_daily_summary]: [None] when the calorie sum is NULL, otherwise the
    four sums converted with [float]. *)
Definition get_daily_summary (a : app) (target_date : date)
  : Py.result (option summary) :=
  match current_user a with
  | None => Py.Raise Py.TypeError
  | Some uid =>
      let rows := intake_of_day (connection a) uid target_date in
      match sum_scaled Foods.calories_per_100g rows with
      | None => Py.Ok None
      | Some calories =>
          protein <- py_float (sum_scaled Foods.protein_g rows) ;;
          carbs <- py_float (sum_scaled Foods.carbs_g rows) ;;
          fat <- py_float (sum_scaled Foods.fat_g rows) ;;
          Py.Ok (Some (mk_summary calories protein carbs fat))
      end
  end.

(** The outcome of the comparison at the end of [show_daily_report]: the
    "exceeded" warning with the amount it prints, the "intake is low"
    warning, or no warning. *)
Inductive status : Set :=
| OVER (exceeded_by : Q)
| LOW
| ON_TRACK.

(** [remaining_cal = max(0, daily_goal - total_cal)]. *)
Definition remaining_cal (total_cal : Q) (daily_goal : Z) : Q :=
  Py.max 0 (inject_Z daily_goal - total_cal).

(** The [if total_cal > daily_goal: ... elif total_cal < daily_goal * 0.7: ...]
    at the end of [show_daily_report]; the first warning prints
    [abs(remaining_cal)]. *)
Definition goal_status (total_cal : Q) (daily_goal : Z) : status :=
  if Py.Qltb (inject_Z daily_goal) total_cal then
    OVER (Py.abs (remaining_cal total_cal daily_goal))
  else if Py.Qltb total_cal (inject_Z daily_goal * 0.7) then LOW
  else ON_TRACK.

(** The macro ratio line: printed only when the three totals sum to more
    than zero. *)
Definition macro_ratio (s : summary) : option (Q * Q * Q) :=
  let total_macros := total_protein s + total_carbs s + total_fat s in
  if Py.Qltb 0 total_macros then
    Some ((total_protein s / total_macros) * 100,
          (total_carbs s / total_macros) * 100,
          (total_fat s / total_macros) * 100)
  else None.

(** What [show_daily_report] prints. *)
Inductive report : Set :=
| LoginRequired
| NoDate
| NoGoal
| NoIntake (daily_goal : Z)
| Report (consumed : Q) (daily_goal : Z) (remaining : Q)
         (macros : summary) (ratio : option (Q * Q * Q)) (st : status).

Definition show_daily_report (a : app) (report_date : option date)
  : Py.result report :=
  match current_user a with
  | None => Py.Ok LoginRequired
  | Some uid =>
      match report_date with
      | None => Py.Ok NoDate
      | Some day =>
          daily_goal <- calculate_daily_calories (connection a) uid ;;
          if negb (truthy_int daily_goal) then Py.Ok NoGoal
          else
            goal <- py_int daily_goal ;;
            summary <- get_daily_summary a day ;;
            match summary with
            | None => Py.Ok (NoIntake goal)
            | Some s =>
                let total_cal := total_calories s in
                Py.Ok (Report total_cal goal (remaining_cal total_cal goal) s
                              (macro_ratio s) (goal_status total_cal goal))
            end
      end
  end.

(** ** Vocabulary of the specification

    Notions the specification's sentences use, stated on their own so that the
    code can be compared with them. *)

(** Truncation toward zero: the floor of a non-negative number, the ceiling
    of a negative one. *)
Definition trunc_toward_zero (x : Q) : Z :=
  if Py.Qltb x 0 then Qceiling x else Qfloor x.

(** The intake records of a user on a day. *)
Definition day_records (d : db) (uid : Z) (day : date) : list Intake.row :=
  filter
    (fun r => (Intake.user_id r =? uid)%Z && (Intake.intake_date r =? day)%Z)
    (daily_intake d).

(** The per-100g value of a macro field of the food with a given id. *)
Definition per_100g (d : db) (column : Foods.row -> option Q) (fid : Z) : Q :=
  match select_food d fid with
  | Some f =>
      match column f with
      | Some v => v
      | None => 0
      end
  | None => 0
  end.

Definition Qsum (xs : list Q) : Q := fold_right Qplus 0 xs.

(** The sum over records of [quantity_g / 100] times a macro field of the
    matched food. *)
Definition scaled_total (d : db) (column : Foods.row -> option Q)
           (records : list Intake.row) : Q :=
  Qsum (map (fun r =>
               Intake.quantity_g r / 100 * per_100g d column (Intake.food_id r))
            records).

(** A record whose food is in the food table with its four macro fields. *)
Definition has_food (d : db) (r : Intake.row) : Prop :=
  exists f : Foods.row,
    select_food d (Intake.food_id r) = Some f
    /\ Foods.calories_per_100g f <> None
    /\ Foods.protein_g f <> None
    /\ Foods.carbs_g f <> None
    /\ Foods.fat_g f <> None.

(** Equality of nullable values, up to the value of the rationals. *)
Definition opt_Qeq (x y : option Q) : Prop :=
  match x, y with
  | Some a, Some b => a == b
  | None, None => True
  | _, _ => False
  end.

(** Equality of summaries and of outcomes, up to the value of the rationals. *)
Definition summary_equiv (s t : summary) : Prop :=
  total_calories s == total_calories t
  /\ total_protein s == total_protein t
  /\ total_carbs s == total_carbs t
  /\ total_fat s == total_fat t.

Definition outcome_equiv (x y : Py.result (option summary)) : Prop :=
  match x, y with
  | Py.Ok (Some s), Py.Ok (Some t) => summary_equiv s t
  | Py.Ok None, Py.Ok None => True
  | Py.Raise e, Py.Raise e' => e = e'
  | _, _ => False
  end.

(** A summary with every total multiplied by [k], and the same on outcomes. *)
Definition scale_summary (k : Q) (s : summary) : summary :=
  mk_summary (k * total_calories s) (k * total_protein s)
             (k * total_carbs s) (k * total_fat s).

Definition scale_outcome (k : Q) (x : Py.result (option summary))
  : Py.result (option summary) :=
  match x with
  | Py.Ok (Some s) => Py.Ok (Some (scale_summary k s))
  | other => other
  end.

(** The session with the intake table replaced. *)
Definition with_daily_intake (a : app) (rows : list Intake.row) : app :=
  mk_app (mk_db (users (connection a)) (food_items (connection a)) rows
                (weight_tracking (connection a)))
         (current_user a).

(** The session with every [quantity_g] multiplied by [k]. *)
Definition scale_quantities (k : Q) (a : app) : app :=
  with_daily_intake a
    (map (fun r => Intake.set_quantity_g r (k * Intake.quantity_g r))
         (daily_intake (connection a))).

(** The same weight entry recorded [n] times in a row. *)
Fixpoint add_weight_entry_times (n : nat) (d : db) (user_id : Z) (weight : Q)
         (recorded_date : date) : Py.result db :=
  match n with
  | O => Py.Ok d
  | S n' =>
      d' <- add_weight_entry_internal d user_id weight recorded_date ;;
      add_weight_entry_times n' d' user_id weight recorded_date
  end.

(** The same intake logged [n] times in a row. *)
Fixpoint log_daily_intake_times (n : nat) (a : app) (today : date)
         (food_id : Z) (quantity : Q) (meal_choice_idx : Z)
         (intake_date : option date) : Py.result app :=
  match n with
  | O => Py.Ok a
  | S n' =>
      a' <- log_daily_intake a today food_id quantity meal_choice_idx
                             intake_date ;;
      log_daily_intake_times n' a' today food_id quantity meal_choice_idx
                             intake_date
  end.

(** The rows of [daily_intake] with the composite key of [key]. *)
Definition rows_with_key (rows : list Intake.row) (key : Intake.row)
  : list Intake.row :=
  filter (fun r => Intake.same_key r key) rows.

(** The entry of [weight_tracking] for a date. *)
Definition weight_entry (d : db) (day : date) : option Weights.row :=
  find (fun r => (Weights.recorded_date r =? day)%Z) (weight_tracking d).

(** ** Sample data

    A small database for concrete instances: four of the foods of
    [insert_sample_foods] under the ids the auto-increment gives them, a
    user whose stored goal is zero with two intake records on day 100, and a
    user whose stored goal is 2000 with 500 g of almonds on the same day. *)

Definition sample_foods : list Foods.row :=
  [ Foods.mk 1 "Apple" (Some 52) (Some 0.3) (Some 14) (Some 0.2);
    Foods.mk 2 "Banana" (Some 89) (Some 1.1) (Some 23) (Some 0.3);
    Foods.mk 3 "Orange" (Some 47) (Some 0.9) (Some 12) (Some 0.1);
    Foods.mk 25 "Almonds" (Some 579) (Some 21) (Some 22) (Some 50) ].

Definition sample_user : Users.row :=
  Users.mk 1 (Some 30%Z) "Male" (Some 175) (Some 70) "Moderate" (Some 0%Z).

Definition sample_user_2 : Users.row :=
  Users.mk 2 (Some 41%Z) "Female" (Some 162) (Some 58) "Light"
           (Some 2000%Z).

Definition sample_db : db :=
  mk_db [ sample_user; sample_user_2 ] sample_foods
        [ Intake.mk 1 1 150 100%Z "Breakfast";
          Intake.mk 1 2 120 100%Z "Lunch";
          Intake.mk 2 25 500 100%Z "Dinner" ]
        [].

Definition sample_app : app := mk_app sample_db (Some 1%Z).

Definition sample_app_2 : app := mk_app sample_db (Some 2%Z).

(** ** Further functions of [main.py] *)

(** [min(a, b)]: the first of the smallest arguments. *)
Definition py_min (a b : Q) : Q := if Py.Qltb b a then b else a.

(** [c in s] for a character and a string. *)
Fixpoint contains_char (c : ascii) (s : string) : bool :=
  match s with
  | EmptyString => false
  | String x s' => Ascii.eqb x c || contains_char c s'
  end.

(** [s.split(sep)] for a one-character separator: the pieces between the
    occurrences of [sep], at least one piece. *)
Fixpoint split_char (sep : ascii) (s : string) : list string :=
  match s with
  | EmptyString => [EmptyString]
  | String x s' =>
      if Ascii.eqb x sep then EmptyString :: split_char sep s'
      else
        match split_char sep s' with
        | [] => [String x EmptyString]
        | piece :: pieces => String x piece :: pieces
        end
  end.

(** *** Input helpers *)

(** [get_positive_int(prompt, min_value, max_value)].  [int(...)] of a typed
    line is a parameter: [None] stands for its [ValueError].  A [max_value]
    of [None] or [0] is false and switches the upper bound off. *)
Fixpoint get_positive_int (int_of_line : string -> option Z)
         (inputs : list string) (min_value : Z) (max_value : option Z)
  : Py.result (Z * list string) :=
  match inputs with
  | [] => Py.Raise Py.EOFError
  | line :: rest =>
      match int_of_line line with
      | None => get_positive_int int_of_line rest min_value max_value
      | Some value =>
          if (value <? min_value)%Z then
            get_positive_int int_of_line rest min_value max_value
          else if truthy_int max_value
                  && match max_value with
                     | Some m => (m <? value)%Z
                     | None => false
                     end
          then get_positive_int int_of_line rest min_value max_value
          else Py.Ok (value, rest)
      end
  end.

(** *** The progress bar *)

Inductive cell : Set := Filled | Blank.

Inductive bar_color : Set := Green | Yellow | Red.

(** The percentage of [print_progress_bar]. *)
Definition progress_percentage (current target : Q) : Q :=
  if Qle_bool target 0 then 0
  else py_min ((current / target) * 100) 100.

(** [filled = int(width * percentage / 100)]. *)
Definition progress_filled (current target : Q) (width : Z) : Z :=
  Py.int (inject_Z width * progress_percentage current target / 100).

(** [print_progress_bar]: the bar ([str * n] is empty for [n <= 0]), the
    colour used when colours are available, and the percentage printed. *)
Definition print_progress_bar (current target : Q) (width : Z)
  : list cell * bar_color * Q :=
  let percentage := progress_percentage current target in
  let filled := progress_filled current target width in
  let bar :=
    repeat Filled (Z.to_nat filled) ++ repeat Blank (Z.to_nat (width - filled))
  in
  let color :=
    if Qle_bool 100 percentage then Green
    else if Qle_bool 75 percentage then Yellow
    else Red in
  (bar, color, percentage).

(** *** Validators *)

(** [Validator.validate_email]:
    ['@' in email and '.' in email.split('@')[1]]. *)
Definition validate_email (email : string) : Py.result bool :=
  if contains_char "@" email then
    piece <- Py.index (split_char "@" email) 1 ;;
    Py.Ok (contains_char "." piece)
  else Py.Ok false.

(** [c.isdigit()] and [c.isalpha()], on the ASCII characters. *)
Definition isdigit (c : ascii) : bool :=
  let n := nat_of_ascii c in ((48 <=? n) && (n <=? 57))%nat.

Definition isalpha (c : ascii) : bool :=
  let n := nat_of_ascii c in
  (((65 <=? n) && (n <=? 90)) || ((97 <=? n) && (n <=? 122)))%nat.

(** [any(p(c) for c in s)]. *)
Fixpoint any_char (p : ascii -> bool) (s : string) : bool :=
  match s with
  | EmptyString => false
  | String c s' => p c || any_char p s'
  end.

(** [Validator.validate_password]: the verdict and its message. *)
Definition validate_password (password : string) : bool * string :=
  if (String.length password <? 6)%nat then
    (false, "Password must be at least 6 characters long"%string)
  else if negb (any_char isdigit password) then
    (false, "Password must contain at least one digit"%string)
  else if negb (any_char isalpha password) then
    (false, "Password must contain at least one letter"%string)
  else (true, "Password is valid"%string).

(** A string of ASCII characters only: where a character of the string is a
    character of the Python [str]. *)
Fixpoint ascii_only (s : string) : bool :=
  match s with
  | EmptyString => true
  | String c s' => (nat_of_ascii c <? 128)%nat && ascii_only s'
  end.

(** *** Health recommendation *)

Definition recommendations : Py.dict string :=
  [ ("Underweight",
     "Consider consulting a nutritionist to develop a healthy weight gain plan.");
    ("Normal",
     "Great job! Maintain your current lifestyle and healthy eating habits.");
    ("Overweight",
     "Consider increasing physical activity and reviewing your diet with a professional.");
    ("Obese",
     "We recommend consulting a healthcare provider for a personalized weight management plan.")
  ]%string.

(** [get_bmi_recommendation]. *)
Definition get_bmi_recommendation (bmi : Q) : string :=
  let category := get_bmi_category bmi in
  Py.get recommendations category
         "Consult a healthcare professional for personalized advice."%string.

(** *** Recording a weight ([add_weight_entry]) *)

(** [add_weight_entry], after its prompts: the weight typed and the date
    ([None] when no date came back). *)
Definition add_weight_entry (a : app) (today : date) (weight : Q)
           (recorded_date : option date) : Py.result app :=
  match current_user a with
  | None => Py.Ok a
  | Some uid =>
      match recorded_date with
      | None => Py.Ok a
      | Some day =>
          if (today <? day)%Z then Py.Ok a
          else
            d <- add_weight_entry_internal (connection a) uid weight day ;;
            Py.Ok (mk_app d (current_user a))
      end
  end.

(** The key columns of a table: at most one row per key value. *)
Definition unique_dates (rows : list Weights.row) : Prop :=
  NoDup (map Weights.recorded_date rows).

Definition intake_key (r : Intake.row) : Z * Z * date * string :=
  (Intake.user_id r, Intake.food_id r, Intake.intake_date r,
   Intake.meal_type r).

Definition unique_intake (rows : list Intake.row) : Prop :=
  NoDup (map intake_key rows).

(** The totals of an outcome of [get_daily_summary], zero when there is no
    summary. *)
Definition totals_or_zero (x : Py.result (option summary)) : summary :=
  match x with
  | Py.Ok (Some s) => s
  | _ => mk_summary 0 0 0 0
  end.

(** A food with its four macro fields. *)
Definition complete_food (f : Foods.row) : Prop :=
  Foods.calories_per_100g f <> None
  /\ Foods.protein_g f <> None
  /\ Foods.carbs_g f <> None
  /\ Foods.fat_g f <> None.

(** Further sample data: a reading of typed integers, a food without a
    protein value, and a weight table with an entry of the second user. *)

Definition sample_int_of_line (line : string) : option Z :=
  if String.eqb line "0" then Some 0%Z
  else if String.eqb line "7" then Some 7%Z
  else if String.eqb line "42" then Some 42%Z
  else if String.eqb line "200" then Some 200%Z
  else None.

Definition sample_app_null_protein : app :=
  mk_app (mk_db [ sample_user ]
                [ Foods.mk 9 "Broth" (Some 12) None (Some 1) (Some 0.5) ]
                [ Intake.mk 1 9 250 100%Z "Lunch" ]
                [])
         (Some 1%Z).

Definition sample_db_weights : db :=
  mk_db [ sample_user; sample_user_2 ] sample_foods []
        [ Weights.mk 2 58 (Some 22.1) 100%Z ].

(* ====================================================================== *)
(** * Part II.  Properties                                                  *)
(* ====================================================================== *)

(** ** Arithmetic of the Python built-ins *)

Lemma Qltb_lt (x y : Q) : Py.Qltb x y = true <-> x < y.
Proof.
  unfold Py.Qltb. rewrite Qlt_alt. destruct (x ?= y); split; congruence.
Qed.

Lemma Qltb_ge (x y : Q) : Py.Qltb x y = false <-> y <= x.
Proof.
  rewrite <- Bool.not_true_iff_false, Qltb_lt. split; intro H.
  - apply Qnot_lt_le; exact H.
  - apply Qle_not_lt; exact H.
Qed.

Lemma inject_Z_succ (z : Z) : inject_Z (z + 1) == inject_Z z + 1.
Proof. rewrite inject_Z_plus. reflexivity. Qed.

Lemma Qdiv_100 (k : Q) : k / 100 == k * (1 # 100).
Proof. field. Qed.

(** [round] returns an integer at distance at most one half. *)
Lemma round_bounds (x : Q) :
  x - (1 # 2) <= inject_Z (Py.round x) <= x + (1 # 2).
Proof.
  unfold Py.round.
  pose proof (Qfloor_le x) as Hlo. pose proof (Qlt_floor x) as Hhi.
  rewrite inject_Z_succ in Hhi.
  destruct (Qcompare_spec (x - inject_Z (Qfloor x)) (1 # 2)) as [He | Hl | Hg].
  - destruct (Z.even (Qfloor x)); [| rewrite inject_Z_succ]; split; lra.
  - split; lra.
  - rewrite inject_Z_succ. split; lra.
Qed.

(** The rounding modes on concrete values: [round] sends a tie to the even
    neighbour, [int] drops the fraction. *)
Example round_ties_to_even :
  Py.round 2.5 = 2%Z /\ Py.round 3.5 = 4%Z /\ Py.round (-2.5) = (-2)%Z
  /\ Py.round 2.6 = 3%Z /\ Py.round (-2.6) = (-3)%Z.
Proof. repeat split. Qed.

Example int_drops_fraction :
  Py.int 2.7 = 2%Z /\ Py.int (-2.7) = (-2)%Z /\ Py.int 1500.6 = 1500%Z.
Proof. repeat split. Qed.

Lemma round_ndigits_2 (x : Q) :
  Py.round_ndigits x 2 = inject_Z (Py.round (x * 100)) / 100.
Proof. reflexivity. Qed.

(** [round(x, 2)] is a whole number of hundredths, at most half a hundredth
    away from [x]. *)
Lemma round_ndigits_2_bounds (x : Q) :
  x - 0.005 <= Py.round_ndigits x 2 <= x + 0.005.
Proof.
  rewrite round_ndigits_2, Qdiv_100.
  pose proof (round_bounds (x * 100)) as [H1 H2].
  split; lra.
Qed.

Lemma round_ndigits_2_hundredths (x : Q) :
  exists k : Z, Py.round_ndigits x 2 == inject_Z k / 100.
Proof. exists (Py.round (x * 100)). rewrite round_ndigits_2. reflexivity. Qed.

(** The value [round(x, 2)] is the closest one: no other number of hundredths
    is strictly nearer to [x]. *)
Lemma round_ndigits_2_nearest (x : Q) (k : Z) :
  Qabs (Py.round_ndigits x 2 - x) <= Qabs (inject_Z k / 100 - x).
Proof.
  rewrite round_ndigits_2, !Qdiv_100.
  set (r := Py.round (x * 100)).
  pose proof (round_bounds (x * 100)) as [H1 H2]. fold r in H1, H2.
  destruct (Z_lt_le_dec k r) as [Hk | Hk].
  - assert (Hz : (k + 1 <= r)%Z) by lia.
    rewrite Zle_Qle, inject_Z_succ in Hz.
    apply Qabs_case; intro; apply Qabs_case; intro; lra.
  - destruct (Z.eq_dec k r) as [-> | Hne]; [apply Qle_refl |].
    assert (Hz : (r + 1 <= k)%Z) by lia.
    rewrite Zle_Qle, inject_Z_succ in Hz.
    apply Qabs_case; intro; apply Qabs_case; intro; lra.
Qed.

Lemma Qle_bool_false (x y : Q) : Qle_bool x y = false <-> y < x.
Proof.
  rewrite <- Bool.not_true_iff_false, Qle_bool_iff. split; intro H.
  - apply Qnot_le_lt; exact H.
  - apply Qlt_not_le; exact H.
Qed.

(** Case analysis on the comparisons of the model, leaving the order facts
    as hypotheses. *)
Ltac cases_on_tests :=
  repeat match goal with
    | |- context [Py.Qltb ?a ?b] =>
        let E := fresh "E" in
        destruct (Py.Qltb a b) eqn:E;
        [apply Qltb_lt in E | apply Qltb_ge in E]
    | |- context [Qle_bool ?a ?b] =>
        let E := fresh "E" in
        destruct (Qle_bool a b) eqn:E;
        [apply Qle_bool_iff in E | apply Qle_bool_false in E]
    end.

(** ** BMR ([calculate_bmr_static]) *)


(** The two branches at the profile's own spellings of the gender. *)
Lemma calculate_bmr_static_Male (w h : Q) (a : Z) :
  calculate_bmr_static w h a "Male"
  == Py.round_ndigits (10 * w + 6.25 * h - 5 * inject_Z a + 5) 2.
Proof. reflexivity. Qed.

Lemma calculate_bmr_static_Female_Other (w h : Q) (a : Z) (g : string) :
  g = "Female"%string \/ g = "Other"%string ->
  calculate_bmr_static w h a g
  == Py.round_ndigits (10 * w + 6.25 * h - 5 * inject_Z a - 161) 2.
Proof. intros [-> | ->]; reflexivity. Qed.


(** C4, as amended.  [calculate_bmr_static(70, 175, 30, "Male")] is 1648.75
    and [calculate_bmr_static(70, 175, 30, "Female")] is 1482.75. *)
Theorem calculate_bmr_static_70_175_30 :
  calculate_bmr_static 70 175 30 "Male" == 1648.75
  /\ calculate_bmr_static 70 175 30 "Female" == 1482.75.
Proof. split; vm_compute; reflexivity. Qed.

(** C4 as stated fails: the values are not 1673.75 and 1507.75. *)
Lemma bmr_70_175_30_is_not_1673_75 :
  ~ calculate_bmr_static 70 175 30 "Male" == 1673.75
  /\ ~ calculate_bmr_static 70 175 30 "Female" == 1507.75.
Proof. split; vm_compute; discriminate. Qed.

(** ** BMI category ([get_bmi_category]) *)

(** C5.  [get_bmi_category] is a lookup over the half-open ranges
    Underweight [0, 18.5), Normal [18.5, 25), Overweight [25, 30) and
    Obese [30, 100); a value below 0 or from 100 on is "Unknown"; 18.4 is
    Underweight, 18.5 and 24.99 are Normal, 25.0 is Overweight. *)
Theorem get_bmi_category_ranges (bmi : Q) :
  (get_bmi_category bmi = "Underweight"%string <-> 0 <= bmi < 18.5)
  /\ (get_bmi_category bmi = "Normal"%string <-> 18.5 <= bmi < 25)
  /\ (get_bmi_category bmi = "Overweight"%string <-> 25 <= bmi < 30)
  /\ (get_bmi_category bmi = "Obese"%string <-> 30 <= bmi < 100)
  /\ (get_bmi_category bmi = "Unknown"%string <-> bmi < 0 \/ 100 <= bmi)
  /\ get_bmi_category 18.4 = "Underweight"%string
  /\ get_bmi_category 18.5 = "Normal"%string
  /\ get_bmi_category 24.99 = "Normal"%string
  /\ get_bmi_category 25.0 = "Overweight"%string.
Proof.
  repeat match goal with |- _ /\ _ => split end;
    try reflexivity;
    unfold get_bmi_category;
    cbn [first_bmi_category Config.BMI_CATEGORIES andb];
    cases_on_tests; cbn [andb];
    (split; [intros Hc; try discriminate Hc; try (split; lra); try lra
            | intros Hr; try reflexivity; exfalso; lra]).
Qed.

(** ** Daily goal at registration ([register_user]) *)

(** [int] truncates toward zero. *)
Lemma int_trunc_toward_zero (x : Q) : Py.int x = trunc_toward_zero x.
Proof.
  unfold Py.int, trunc_toward_zero.
  destruct x as [n d]. cbn [Qnum Qden].
  destruct (Py.Qltb (n # d) 0) eqn:E.
  - apply Qltb_lt in E. unfold Qlt in E. cbn in E.
    unfold Qceiling, Qfloor. cbn [Qopp Qnum Qden].
    assert (Hn : (n < 0)%Z) by lia.
    replace n with (- (- n))%Z at 1 by lia.
    rewrite Z.quot_opp_l by lia.
    rewrite Z.quot_div_nonneg by lia. reflexivity.
  - apply Qltb_ge in E. unfold Qle in E. cbn in E.
    unfold Qfloor. apply Z.quot_div_nonneg; lia.
Qed.

Lemma trunc_toward_zero_comp (x y : Q) :
  x == y -> trunc_toward_zero x = trunc_toward_zero y.
Proof.
  intros H. unfold trunc_toward_zero.
  assert (E : Py.Qltb x 0 = Py.Qltb y 0).
  { unfold Py.Qltb. rewrite H. reflexivity. }
  rewrite E. destruct (Py.Qltb y 0).
  - unfold Qceiling. rewrite H. reflexivity.
  - rewrite H. reflexivity.
Qed.

(** C2, as amended.  For every tdee and every goal type among lose, maintain
    and gain, the goal computed at registration is [tdee + adjustment]
    truncated toward zero ([int]), with the adjustments -500, 0 and +300; at
    tdee 2000 this gives 1500, 2000 and 2300. *)
Theorem register_user_daily_calorie_goal_truncates (tdee : Q) :
  register_user_daily_calorie_goal tdee "lose"
  = Py.Ok (trunc_toward_zero (tdee - 500))
  /\ register_user_daily_calorie_goal tdee "maintain"
     = Py.Ok (trunc_toward_zero tdee)
  /\ register_user_daily_calorie_goal tdee "gain"
     = Py.Ok (trunc_toward_zero (tdee + 300))
  /\ register_user_daily_calorie_goal 2000 "lose" = Py.Ok 1500%Z
  /\ register_user_daily_calorie_goal 2000 "maintain" = Py.Ok 2000%Z
  /\ register_user_daily_calorie_goal 2000 "gain" = Py.Ok 2300%Z.
Proof.
  unfold register_user_daily_calorie_goal.
  cbn [Py.getitem Config.GOAL_CALORIE_ADJUSTMENT Py.bind String.eqb Ascii.eqb
       Bool.eqb].
  repeat split; try reflexivity; f_equal; rewrite int_trunc_toward_zero;
    apply trunc_toward_zero_comp; unfold inject_Z; lra.
Qed.

(** C2 as stated fails: the code truncates where the claim rounds.  At tdee
    2000.6 and goal "lose" the code stores 1500 and rounding gives 1501; a
    70 kg, 175 cm, 30 year old "Male" at "Moderate" activity and goal
    "maintain" gets 2555 where rounding gives 2556. *)
Lemma register_user_daily_calorie_goal_not_rounded :
  register_user_daily_calorie_goal 2000.6 "lose" = Py.Ok 1500%Z
  /\ Py.round (2000.6 + inject_Z (-500)) = 1501%Z
  /\ register_user_goal 70 175 30 "Male" "Moderate" "maintain" = Py.Ok 2555%Z
  /\ Py.round (calculate_bmr_static 70 175 30 "Male" * 1.55 + inject_Z 0)
     = 2556%Z.
Proof. repeat split; vm_compute; reflexivity. Qed.

(** ** Goal evaluation ([show_daily_report]) *)

(** [remaining_cal] is [max(0, daily_goal - total_cal)]: never negative, the
    difference while the goal is not exceeded, zero afterwards. *)
Lemma remaining_cal_max (total_cal : Q) (daily_goal : Z) :
  0 <= remaining_cal total_cal daily_goal
  /\ (total_cal <= inject_Z daily_goal ->
      remaining_cal total_cal daily_goal == inject_Z daily_goal - total_cal)
  /\ (inject_Z daily_goal < total_cal ->
      remaining_cal total_cal daily_goal == 0).
Proof.
  unfold remaining_cal, Py.max. cases_on_tests;
    (split; [| split]); intros; lra.
Qed.

(** The classification is in the order OVER, LOW, ON_TRACK. *)
Lemma goal_status_classification (total_cal : Q) (daily_goal : Z) :
  ((exists e, goal_status total_cal daily_goal = OVER e)
   <-> inject_Z daily_goal < total_cal)
  /\ (goal_status total_cal daily_goal = LOW
      <-> total_cal <= inject_Z daily_goal
          /\ total_cal < inject_Z daily_goal * 0.7)
  /\ (goal_status total_cal daily_goal = ON_TRACK
      <-> total_cal <= inject_Z daily_goal
          /\ inject_Z daily_goal * 0.7 <= total_cal).
Proof.
  unfold goal_status. cases_on_tests; (split; [| split]); split;
    try (intros [e He]; discriminate He);
    try (intros He; discriminate He);
    try (intros _; eauto; split; lra);
    try (intros; exfalso; lra);
    try (intros; reflexivity); eauto.
Qed.

(** Whenever the goal is exceeded, the amount the warning prints is zero:
    [abs] is applied to the remaining calories, which [max] has already cut
    off at zero. *)
Lemma goal_status_exceeded_by_zero (total_cal : Q) (daily_goal : Z) :
  inject_Z daily_goal < total_cal ->
  exists e, goal_status total_cal daily_goal = OVER e /\ e == 0.
Proof.
  intros H. unfold goal_status.
  apply Qltb_lt in H. rewrite H. eexists. split; [reflexivity |].
  apply Qltb_lt in H.
  destruct (remaining_cal_max total_cal daily_goal) as (_ & _ & Hz).
  unfold Py.abs. rewrite (Hz H). reflexivity.
Qed.

(** C1, at the failing input.  With 2500 calories eaten against a goal of
    2000 the report classifies the day as OVER with 0 remaining, and the
    amount it prints as exceeded is 0, not 2500 - 2000; 1000 against 2000 is
    LOW and 1800 against 2000 is ON_TRACK.  The same in a whole report: the
    sample user with goal 2000 and 2895 calories logged is told to have
    exceeded the goal by 0. *)
Theorem goal_status_2500_2000_exceeded_by_zero :
  goal_status 2500 2000 = OVER 0
  /\ remaining_cal 2500 2000 == 0
  /\ ~ 0 == 2500 - 2000
  /\ goal_status 1000 2000 = LOW
  /\ goal_status 1800 2000 = ON_TRACK
  /\ (exists (consumed remaining exceeded_by : Q) (s : summary)
             (ratio : option (Q * Q * Q)),
         show_daily_report sample_app_2 (Some 100%Z)
         = Py.Ok (Report consumed 2000 remaining s ratio (OVER exceeded_by))
         /\ consumed == 2895
         /\ remaining == 0
         /\ exceeded_by == 0).
Proof.
  repeat match goal with |- _ /\ _ => split end; try reflexivity.
  - vm_compute. discriminate.
  - do 5 eexists. split; [vm_compute; reflexivity |].
    repeat split; vm_compute; reflexivity.
Qed.

(** ** TDEE and the stored goal ([calculate_daily_calories]) *)

Lemma get_choice_in_options (options inputs : list string) (c : string)
      (rest : list string) :
  get_choice inputs options = Py.Ok (c, rest) -> In c options.
Proof.
  induction inputs as [| line inputs IH]; cbn [get_choice]; [discriminate |].
  destruct (Py.contains options (Py.strip line)) eqn:E; [| exact IH].
  intros H. injection H as <- _.
  unfold Py.contains in E. apply existsb_exists in E.
  destruct E as (x & Hin & Hx). apply String.eqb_eq in Hx. subst x. exact Hin.
Qed.

(** The activity level read at registration is one of the five keys of
    [Config.ACTIVITY_MULTIPLIERS]. *)
Lemma choose_activity_level_valid (inputs rest : list string) (level : string) :
  choose_activity_level inputs = Py.Ok (level, rest) ->
  In level [ "Sedentary"; "Light"; "Moderate"; "Active"; "Very Active" ]%string.
Proof.
  unfold choose_activity_level, choose.
  destruct (get_choice inputs _) as [[c rest'] |] eqn:E; [| discriminate].
  apply get_choice_in_options in E. cbn [Py.bind fst snd].
  cbn [In] in E.
  destruct E as [<- | [<- | [<- | [<- | [<- | []]]]]];
    cbn; intros H; injection H as <- _; cbn [In]; tauto.
Qed.

(** C9.  On the live path the TDEE is the BMR times 1.2, 1.375, 1.55, 1.725
    or 1.9 for Sedentary, Light, Moderate, Active and Very Active, and times
    1.2 for every other activity level, without failing: for a profile without
    a stored goal [calculate_daily_calories] returns that TDEE, rounded.  On
    the registration path the five levels give the same products, every other
    level fails with a [KeyError] instead of falling back, and the level the
    menu yields is always one of the five. *)
Theorem tdee_multipliers_and_fallback (bmr : Q) :
  calculate_daily_calories_tdee bmr "Sedentary" = bmr * 1.2
  /\ calculate_daily_calories_tdee bmr "Light" = bmr * 1.375
  /\ calculate_daily_calories_tdee bmr "Moderate" = bmr * 1.55
  /\ calculate_daily_calories_tdee bmr "Active" = bmr * 1.725
  /\ calculate_daily_calories_tdee bmr "Very Active" = bmr * 1.9
  /\ (forall level : string,
        ~ In level [ "Sedentary"; "Light"; "Moderate"; "Active";
                     "Very Active" ]%string ->
        calculate_daily_calories_tdee bmr level = bmr * 1.2
        /\ register_user_tdee bmr level = Py.Raise Py.KeyError)
  /\ (forall (d : db) (uid : Z) (user : Users.row) (w h : Q) (a : Z),
        select_user d uid = Some user ->
        truthy_int (Users.daily_calorie_goal user) = false ->
        Users.weight_kg user = Some w ->
        Users.height_cm user = Some h ->
        Users.age user = Some a ->
        calculate_daily_calories d uid
        = Py.Ok (Some (Py.round
                         (calculate_daily_calories_tdee
                            (calculate_bmr_static w h a (Users.gender user))
                            (Users.activity_level user)))))
  /\ (forall level : string,
        In level [ "Sedentary"; "Light"; "Moderate"; "Active";
                   "Very Active" ]%string ->
        register_user_tdee bmr level
        = Py.Ok (calculate_daily_calories_tdee bmr level))
  /\ (forall (inputs rest : list string) (level : string),
        choose_activity_level inputs = Py.Ok (level, rest) ->
        In level [ "Sedentary"; "Light"; "Moderate"; "Active";
                   "Very Active" ]%string).
Proof.
  repeat match goal with |- _ /\ _ => split end; try reflexivity.
  - intros level Hn. cbn [In] in Hn.
    unfold calculate_daily_calories_tdee, register_user_tdee.
    cbn [Py.get Py.getitem Config.ACTIVITY_MULTIPLIERS].
    repeat match goal with
      | |- context [String.eqb ?k level] =>
          destruct (String.eqb_spec k level) as [He | _]; [tauto |]
      end.
    split; reflexivity.
  - intros d uid user w h a Hu Hg Hw Hh Ha.
    unfold calculate_daily_calories, calculate_bmr.
    rewrite Hu, Hg, Hw, Hh, Ha. reflexivity.
  - intros level Hin. cbn [In] in Hin.
    destruct Hin as [<- | [<- | [<- | [<- | [<- | []]]]]]; reflexivity.
  - intros inputs rest level. apply choose_activity_level_valid.
Qed.

Lemma truthy_int_false (v : option Z) :
  truthy_int v = false <-> v = None \/ v = Some 0%Z.
Proof.
  destruct v as [n |]; cbn.
  - rewrite Bool.negb_false_iff, Z.eqb_eq. split.
    + intros ->. right; reflexivity.
    + intros [H | H]; congruence.
  - split; [left; reflexivity | reflexivity].
Qed.

(** C10.  [calculate_daily_calories] returns the stored goal when it is
    neither NULL nor zero; a stored zero is treated as a missing goal: in
    both cases the result is [round(bmr * multiplier)] of the profile, with
    the multiplier of the activity level (1.2 for an unknown level). *)
Theorem calculate_daily_calories_stored_goal (d : db) (uid : Z)
        (user : Users.row) (w h : Q) (a : Z) :
  select_user d uid = Some user ->
  Users.weight_kg user = Some w ->
  Users.height_cm user = Some h ->
  Users.age user = Some a ->
  (forall g : Z,
      Users.daily_calorie_goal user = Some g -> g <> 0%Z ->
      calculate_daily_calories d uid = Py.Ok (Some g))
  /\ (Users.daily_calorie_goal user = Some 0%Z
      \/ Users.daily_calorie_goal user = None ->
      calculate_daily_calories d uid
      = Py.Ok (Some (Py.round
                       (calculate_bmr_static w h a (Users.gender user)
                        * Py.get Config.ACTIVITY_MULTIPLIERS
                                 (Users.activity_level user) 1.2)))).
Proof.
  intros Hu Hw Hh Ha. unfold calculate_daily_calories. rewrite Hu. split.
  - intros g Hg Hnz. rewrite Hg. cbn.
    apply Z.eqb_neq in Hnz. rewrite Hnz. reflexivity.
  - intros Hg.
    assert (Hf : truthy_int (Users.daily_calorie_goal user) = false)
      by (apply truthy_int_false; tauto).
    rewrite Hf. unfold calculate_bmr. rewrite Hu, Hw, Hh, Ha. reflexivity.
Qed.

(** ** Daily summary ([get_daily_summary]) *)

(** The selected rows of the join are the day's records, each paired with the
    foods of its id. *)
Lemma intake_of_day_records (d : db) (uid : Z) (day : date) :
  intake_of_day d uid day
  = flat_map
      (fun t1 =>
         map (pair t1)
             (filter (fun t2 => (Intake.food_id t1 =? Foods.food_id t2)%Z)
                     (food_items d)))
      (day_records d uid day).
Proof.
  unfold intake_of_day, intake_join_food, day_records.
  induction (daily_intake d) as [| r rows IH]; [reflexivity |].
  cbn [flat_map filter]. rewrite filter_app, IH.
  set (keep := (Intake.user_id r =? uid)%Z && (Intake.intake_date r =? day)%Z).
  assert (Hf : forall fs : list Foods.row,
             filter
               (fun '(t1, _) =>
                  (Intake.user_id t1 =? uid)%Z
                  && (Intake.intake_date t1 =? day)%Z)
               (map (pair r) fs)
             = if keep then map (pair r) fs else []).
  { induction fs as [| f fs IHf]; [destruct keep; reflexivity |].
    cbn [map filter]. fold keep. rewrite IHf. destruct keep; reflexivity. }
  rewrite Hf. destruct keep; reflexivity.
Qed.

(** C6.  When no intake record of the user is dated on the day,
    [get_daily_summary] returns [None], not a summary of zeros. *)
Theorem get_daily_summary_absent (a : app) (uid : Z) (day : date) :
  current_user a = Some uid ->
  day_records (connection a) uid day = [] ->
  get_daily_summary a day = Py.Ok None
  /\ get_daily_summary a day <> Py.Ok (Some (mk_summary 0 0 0 0)).
Proof.
  intros Hu Hr.
  assert (H : get_daily_summary a day = Py.Ok None).
  { unfold get_daily_summary. rewrite Hu, intake_of_day_records, Hr.
    reflexivity. }
  split; [exact H | rewrite H; discriminate].
Qed.

(** *** The sums of the summary *)

(** Under the primary key of [food_items], the join pairs a record with
    exactly the food [select_food] finds. *)
Lemma filter_food_id_unique (fs : list Foods.row) (fid : Z) (f : Foods.row) :
  NoDup (map Foods.food_id fs) ->
  find (fun f' => (Foods.food_id f' =? fid)%Z) fs = Some f ->
  filter (fun t2 => (fid =? Foods.food_id t2)%Z) fs = [f].
Proof.
  induction fs as [| g fs IH]; cbn [find filter map]; [discriminate |].
  intros Hnd Hfind. inversion Hnd as [| x xs Hnotin Hnd']; subst.
  rewrite (Z.eqb_sym fid).
  destruct (Z.eqb_spec (Foods.food_id g) fid) as [He | Hne].
  - injection Hfind as <-. f_equal.
    assert (Hnone : forall l : list Foods.row,
               ~ In fid (map Foods.food_id l) ->
               filter (fun t2 => (fid =? Foods.food_id t2)%Z) l = []).
    { induction l as [| y l IHl]; [reflexivity |].
      cbn [map In filter]. intros Hn.
      destruct (Z.eqb_spec fid (Foods.food_id y)) as [E | _].
      - exfalso. apply Hn. left. symmetry. exact E.
      - apply IHl. tauto. }
    apply Hnone. rewrite <- He. exact Hnotin.
  - apply IH; assumption.
Qed.

(** One term of a sum, for a record whose food has the field. *)
Lemma scaled_term (d : db) (column : Foods.row -> option Q) (r : Intake.row)
      (f : Foods.row) (v : Q) :
  select_food d (Intake.food_id r) = Some f ->
  column f = Some v ->
  exists x : Q,
    sql_mul (Some (Intake.quantity_g r)) (sql_div (column f) (Some 100))
    = Some x
    /\ x == Intake.quantity_g r / 100 * per_100g d column (Intake.food_id r).
Proof.
  intros Hf Hc. unfold per_100g. rewrite Hf, Hc. cbn.
  eexists. split; [reflexivity | field].
Qed.

(** The SQL sum over the day's rows against the sum the specification
    writes, for one macro field. *)
Lemma sum_scaled_total (d : db) (column : Foods.row -> option Q)
      (records : list Intake.row) :
  NoDup (map Foods.food_id (food_items d)) ->
  (forall r, In r records ->
             exists f v, select_food d (Intake.food_id r) = Some f
                         /\ column f = Some v) ->
  match
    sum_scaled column
      (flat_map
         (fun t1 =>
            map (pair t1)
                (filter (fun t2 => (Intake.food_id t1 =? Foods.food_id t2)%Z)
                        (food_items d)))
         records)
  with
  | Some total => records <> [] /\ total == scaled_total d column records
  | None => records = []
  end.
Proof.
  intros Hpk. induction records as [| r records IH]; intros Hfood.
  - reflexivity.
  - destruct (Hfood r (or_introl eq_refl)) as (f & v & Hf & Hc).
    cbn [flat_map].
    rewrite (filter_food_id_unique (food_items d) (Intake.food_id r) f Hpk Hf).
    cbn [map List.app]. unfold sum_scaled in *. cbn [map sql_sum].
    destruct (scaled_term d column r f v Hf Hc) as (x & -> & Hx).
    specialize (IH (fun r' Hin => Hfood r' (or_intror Hin))).
    unfold scaled_total in *. cbn [map Qsum fold_right].
    destruct (sql_sum _) as [s |].
    + destruct IH as [_ IH]. split; [discriminate |].
      fold (Qsum (map
                    (fun r0 =>
                       Intake.quantity_g r0 / 100
                       * per_100g d column (Intake.food_id r0)) records)).
      rewrite Hx, IH. reflexivity.
    + subst records. split; [discriminate |]. cbn. rewrite Hx. ring.
Qed.

(** *** Order of the records *)

Lemma opt_Qeq_refl (x : option Q) : opt_Qeq x x.
Proof. destruct x; cbn; [reflexivity | exact I]. Qed.

Lemma opt_Qeq_trans (x y z : option Q) :
  opt_Qeq x y -> opt_Qeq y z -> opt_Qeq x z.
Proof.
  destruct x, y, z; cbn; try tauto. intros H1 H2. rewrite H1. exact H2.
Qed.

(** [SUM] does not depend on the order of its inputs. *)
Lemma sql_sum_Permutation (l l' : list (option Q)) :
  Permutation l l' -> opt_Qeq (sql_sum l) (sql_sum l').
Proof.
  induction 1 as [| x l l' _ IH | x y l | l l' l'' _ IH1 _ IH2].
  - exact I.
  - cbn [sql_sum]. destruct x as [v |]; [| exact IH].
    destruct (sql_sum l), (sql_sum l'); cbn in *; try tauto.
    + rewrite IH. reflexivity.
    + reflexivity.
  - cbn [sql_sum].
    destruct x as [a |], y as [b |], (sql_sum l) as [s |]; cbn;
      try exact I; try ring; reflexivity.
  - eapply opt_Qeq_trans; eassumption.
Qed.

Lemma Permutation_filter {A : Type} (p : A -> bool) (l l' : list A) :
  Permutation l l' -> Permutation (filter p l) (filter p l').
Proof.
  induction 1 as [| x l l' _ IH | x y l | l l' l'' _ IH1 _ IH2].
  - constructor.
  - cbn [filter]. destruct (p x); [constructor |]; exact IH.
  - cbn [filter]. destruct (p x), (p y);
      try apply Permutation_refl; apply perm_swap.
  - eapply Permutation_trans; eassumption.
Qed.

Lemma sum_scaled_Permutation (column : Foods.row -> option Q)
      (rows rows' : list (Intake.row * Foods.row)) :
  Permutation rows rows' ->
  opt_Qeq (sum_scaled column rows) (sum_scaled column rows').
Proof.
  intros H. unfold sum_scaled. apply sql_sum_Permutation.
  apply Permutation_map. exact H.
Qed.

Lemma intake_of_day_Permutation (d d' : db) (uid : Z) (day : date) :
  food_items d' = food_items d ->
  Permutation (daily_intake d) (daily_intake d') ->
  Permutation (intake_of_day d uid day) (intake_of_day d' uid day).
Proof.
  intros Hf Hp. unfold intake_of_day, intake_join_food. rewrite Hf.
  apply Permutation_filter. apply Permutation_flat_map. exact Hp.
Qed.

(** The outcome of [get_daily_summary] is determined by its four sums. *)
Lemma get_daily_summary_sums (a a' : app) (day : date) (uid : Z) :
  current_user a = Some uid ->
  current_user a' = Some uid ->
  (forall column,
      opt_Qeq (sum_scaled column (intake_of_day (connection a) uid day))
              (sum_scaled column (intake_of_day (connection a') uid day))) ->
  outcome_equiv (get_daily_summary a day) (get_daily_summary a' day).
Proof.
  intros Hu Hu' Hs. unfold get_daily_summary. rewrite Hu, Hu'.
  pose proof (Hs Foods.calories_per_100g) as Hc.
  pose proof (Hs Foods.protein_g) as Hp.
  pose proof (Hs Foods.carbs_g) as Hb.
  pose proof (Hs Foods.fat_g) as Hf.
  destruct (sum_scaled Foods.calories_per_100g _),
           (sum_scaled Foods.calories_per_100g _); cbn in Hc;
    try contradiction; [| exact I].
  destruct (sum_scaled Foods.protein_g _),
           (sum_scaled Foods.protein_g _); cbn in Hp;
    try contradiction; [| reflexivity].
  destruct (sum_scaled Foods.carbs_g _),
           (sum_scaled Foods.carbs_g _); cbn in Hb;
    try contradiction; [| reflexivity].
  destruct (sum_scaled Foods.fat_g _),
           (sum_scaled Foods.fat_g _); cbn in Hf;
    try contradiction; [| reflexivity].
  cbn. unfold summary_equiv. cbn. tauto.
Qed.

(** *** Scaling of the quantities *)

Lemma sql_sum_scale (k : Q) (l l' : list (option Q)) :
  Forall2 (fun x y => opt_Qeq x (option_map (Qmult k) y)) l l' ->
  opt_Qeq (sql_sum l) (option_map (Qmult k) (sql_sum l')).
Proof.
  induction 1 as [| x y l l' Hxy _ IH]; [exact I |].
  cbn [sql_sum]. destruct x as [u |], y as [v |]; cbn in Hxy;
    try contradiction; [| exact IH].
  destruct (sql_sum l) as [s |], (sql_sum l') as [t |]; cbn in IH |- *;
    try contradiction.
  - rewrite Hxy, IH. ring.
  - exact Hxy.
Qed.

Lemma intake_of_day_scale (k : Q) (a : app) (uid : Z) (day : date) :
  intake_of_day (connection (scale_quantities k a)) uid day
  = map (fun p =>
           (Intake.set_quantity_g (fst p) (k * Intake.quantity_g (fst p)),
            snd p))
        (intake_of_day (connection a) uid day).
Proof.
  rewrite !intake_of_day_records. unfold day_records, scale_quantities.
  cbn [connection with_daily_intake daily_intake food_items].
  rewrite filter_map_swap. cbn [Intake.set_quantity_g Intake.user_id
                                 Intake.intake_date].
  induction (filter _ (daily_intake (connection a))) as [| r rows IH];
    [reflexivity |].
  cbn [map flat_map]. rewrite map_app, IH, map_map. reflexivity.
Qed.

Lemma sum_scaled_scale (k : Q) (column : Foods.row -> option Q)
      (rows : list (Intake.row * Foods.row)) :
  opt_Qeq
    (sum_scaled column
       (map (fun p =>
               (Intake.set_quantity_g (fst p) (k * Intake.quantity_g (fst p)),
                snd p))
            rows))
    (option_map (Qmult k) (sum_scaled column rows)).
Proof.
  unfold sum_scaled. rewrite map_map. apply sql_sum_scale.
  induction rows as [| [t1 t2] rows IH]; constructor; [| exact IH].
  cbn [fst snd Intake.set_quantity_g Intake.quantity_g].
  destruct (sql_div (column t2) (Some 100)) as [y |]; cbn; [ring | exact I].
Qed.

(** Multiplying every quantity by [k] multiplies every total by [k]. *)
Lemma get_daily_summary_scale (k : Q) (a : app) (day : date) :
  outcome_equiv (get_daily_summary (scale_quantities k a) day)
                (scale_outcome k (get_daily_summary a day)).
Proof.
  unfold get_daily_summary.
  change (current_user (scale_quantities k a)) with (current_user a).
  destruct (current_user a) as [uid |]; [| reflexivity].
  rewrite intake_of_day_scale.
  pose proof (sum_scaled_scale k Foods.calories_per_100g
                (intake_of_day (connection a) uid day)) as Hc.
  pose proof (sum_scaled_scale k Foods.protein_g
                (intake_of_day (connection a) uid day)) as Hp.
  pose proof (sum_scaled_scale k Foods.carbs_g
                (intake_of_day (connection a) uid day)) as Hb.
  pose proof (sum_scaled_scale k Foods.fat_g
                (intake_of_day (connection a) uid day)) as Hf.
  destruct (sum_scaled Foods.calories_per_100g (map _ _)),
           (sum_scaled Foods.calories_per_100g _); cbn in Hc;
    try contradiction; [| exact I].
  destruct (sum_scaled Foods.protein_g (map _ _)),
           (sum_scaled Foods.protein_g _); cbn in Hp;
    try contradiction; [| reflexivity].
  destruct (sum_scaled Foods.carbs_g (map _ _)),
           (sum_scaled Foods.carbs_g _); cbn in Hb;
    try contradiction; [| reflexivity].
  destruct (sum_scaled Foods.fat_g (map _ _)),
           (sum_scaled Foods.fat_g _); cbn in Hf;
    try contradiction; [| reflexivity].
  cbn. unfold summary_equiv. cbn. tauto.
Qed.

(** The order of the rows of [daily_intake] does not matter. *)
Lemma get_daily_summary_Permutation (a : app) (rows' : list Intake.row)
      (day : date) :
  Permutation (daily_intake (connection a)) rows' ->
  outcome_equiv (get_daily_summary (with_daily_intake a rows') day)
                (get_daily_summary a day).
Proof.
  intros Hp. destruct (current_user a) as [uid |] eqn:Hu.
  - apply (get_daily_summary_sums _ _ day uid); [exact Hu | exact Hu |].
    intros column. apply sum_scaled_Permutation.
    apply intake_of_day_Permutation; [reflexivity |].
    apply Permutation_sym. exact Hp.
  - unfold get_daily_summary. cbn [with_daily_intake current_user].
    rewrite Hu. reflexivity.
Qed.

(** C7.  For a non-empty set of the day's records, each matched by a food
    with its four macro fields, every total of [get_daily_summary] is the
    sum over the records of [quantity_g / 100] times the food's field; the
    totals do not change when the records are permuted, and doubling every
    [quantity_g] doubles each of the four totals. *)
Theorem get_daily_summary_sum_order_linear (a : app) (uid : Z) (day : date) :
  current_user a = Some uid ->
  NoDup (map Foods.food_id (food_items (connection a))) ->
  day_records (connection a) uid day <> [] ->
  (forall r, In r (day_records (connection a) uid day) ->
             has_food (connection a) r) ->
  (exists s : summary,
      get_daily_summary a day = Py.Ok (Some s)
      /\ total_calories s
         == scaled_total (connection a) Foods.calories_per_100g
                         (day_records (connection a) uid day)
      /\ total_protein s
         == scaled_total (connection a) Foods.protein_g
                         (day_records (connection a) uid day)
      /\ total_carbs s
         == scaled_total (connection a) Foods.carbs_g
                         (day_records (connection a) uid day)
      /\ total_fat s
         == scaled_total (connection a) Foods.fat_g
                         (day_records (connection a) uid day))
  /\ (forall rows' : list Intake.row,
        Permutation (daily_intake (connection a)) rows' ->
        outcome_equiv (get_daily_summary (with_daily_intake a rows') day)
                      (get_daily_summary a day))
  /\ outcome_equiv (get_daily_summary (scale_quantities 2 a) day)
                   (scale_outcome 2 (get_daily_summary a day)).
Proof.
  intros Hu Hpk Hne Hfood. split; [| split].
  - unfold get_daily_summary. rewrite Hu, intake_of_day_records.
    assert (Hcol : forall column : Foods.row -> option Q,
               (forall r, In r (day_records (connection a) uid day) ->
                          exists f v,
                            select_food (connection a) (Intake.food_id r)
                            = Some f /\ column f = Some v) ->
               exists total,
                 sum_scaled column
                   (flat_map
                      (fun t1 =>
                         map (pair t1)
                             (filter
                                (fun t2 =>
                                   (Intake.food_id t1 =? Foods.food_id t2)%Z)
                                (food_items (connection a))))
                      (day_records (connection a) uid day))
                 = Some total
                 /\ total
                    == scaled_total (connection a) column
                                    (day_records (connection a) uid day)).
    { intros column Hc.
      pose proof (sum_scaled_total (connection a) column _ Hpk Hc) as H.
      destruct (sum_scaled column _) as [t |]; [| contradiction].
      exists t. split; [reflexivity | apply H]. }
    assert (Hsome : forall (column : Foods.row -> option Q) (f : Foods.row),
               column f <> None -> exists v, column f = Some v).
    { intros column f Hn. destruct (column f) as [v |];
        [exists v; reflexivity | contradiction]. }
    destruct (Hcol Foods.calories_per_100g) as (c & -> & Hc).
    { intros r Hr. destruct (Hfood r Hr) as (f & Hf & H1 & _).
      destruct (Hsome _ _ H1) as [v Hv]. exists f, v. tauto. }
    destruct (Hcol Foods.protein_g) as (p & -> & Hp).
    { intros r Hr. destruct (Hfood r Hr) as (f & Hf & _ & H2 & _).
      destruct (Hsome _ _ H2) as [v Hv]. exists f, v. tauto. }
    destruct (Hcol Foods.carbs_g) as (b & -> & Hb).
    { intros r Hr. destruct (Hfood r Hr) as (f & Hf & _ & _ & H3 & _).
      destruct (Hsome _ _ H3) as [v Hv]. exists f, v. tauto. }
    destruct (Hcol Foods.fat_g) as (t & -> & Ht).
    { intros r Hr. destruct (Hfood r Hr) as (f & Hf & _ & _ & _ & H4).
      destruct (Hsome _ _ H4) as [v Hv]. exists f, v. tauto. }
    eexists. split; [reflexivity |]. cbn. tauto.
  - intros rows'. apply get_daily_summary_Permutation.
  - apply get_daily_summary_scale.
Qed.

(** ** Weight entries ([add_weight_entry_internal]) *)

Lemma select_user_update (us : list Users.row) (w : Q) (uid : Z) :
  find (fun u => (Users.user_id u =? uid)%Z) (update_user_weight us w uid)
  = option_map (fun u => Users.set_weight_kg u w)
               (find (fun u => (Users.user_id u =? uid)%Z) us).
Proof.
  induction us as [| u us IH]; [reflexivity |].
  cbn [update_user_weight map find].
  destruct (Users.user_id u =? uid)%Z eqn:E.
  - cbn [Users.set_weight_kg Users.user_id]. rewrite E. reflexivity.
  - rewrite E. exact IH.
Qed.

Lemma update_user_weight_idempotent (us : list Users.row) (w : Q) (uid : Z) :
  update_user_weight (update_user_weight us w uid) w uid
  = update_user_weight us w uid.
Proof.
  unfold update_user_weight. rewrite map_map. apply map_ext. intros u.
  destruct (Users.user_id u =? uid)%Z eqn:E.
  - cbn [Users.set_weight_kg Users.user_id]. rewrite E. reflexivity.
  - rewrite E. reflexivity.
Qed.

Lemma upsert_weight_idempotent (rows : list Weights.row) (new : Weights.row) :
  upsert_weight (upsert_weight rows new) new = upsert_weight rows new.
Proof.
  induction rows as [| r rows IH]; cbn [upsert_weight].
  - unfold Weights.same_key. rewrite Z.eqb_refl. destruct new; reflexivity.
  - destruct (Weights.same_key r new) eqn:E; cbn [upsert_weight].
    + unfold Weights.same_key in *.
      cbn [Weights.set_weight_bmi Weights.recorded_date]. rewrite E.
      reflexivity.
    + rewrite E, IH. reflexivity.
Qed.

(** After the upsert the entry of the date holds the new weight and BMI. *)
Lemma upsert_weight_entry (rows : list Weights.row) (new : Weights.row) :
  exists r : Weights.row,
    find (fun r => (Weights.recorded_date r =? Weights.recorded_date new)%Z)
         (upsert_weight rows new) = Some r
    /\ Weights.weight_kg r = Weights.weight_kg new
    /\ Weights.bmi r = Weights.bmi new.
Proof.
  induction rows as [| r rows IH]; cbn [upsert_weight].
  - exists new. cbn [find]. rewrite Z.eqb_refl. tauto.
  - unfold Weights.same_key.
    destruct (Weights.recorded_date r =? Weights.recorded_date new)%Z eqn:E.
    + eexists. cbn [find Weights.set_weight_bmi Weights.recorded_date].
      rewrite E. split; [reflexivity |]. split; reflexivity.
    + cbn [find]. rewrite E. exact IH.
Qed.

(** A non-zero height never makes [calculate_bmi] divide by zero. *)
Lemma calculate_bmi_defined (weight height : Q) :
  Qeq_bool height 0 = false ->
  calculate_bmi weight height
  = Py.Ok (Py.round_ndigits (weight / ((height / 100) ^ 2)) 2).
Proof.
  intros Hh. unfold calculate_bmi.
  destruct (Qeq_bool ((height / 100) ^ 2) 0) eqn:E; [| reflexivity].
  exfalso. apply Qeq_bool_iff in E.
  assert (Hz : height == 0).
  { change ((height / 100) ^ 2) with ((height / 100) * (height / 100)) in E.
    apply Qmult_integral in E.
    assert (H0 : height / 100 == 0) by tauto.
    rewrite Qdiv_100 in H0. lra. }
  apply Qeq_bool_iff in Hz. congruence.
Qed.

(** The method always returns, and a second identical call changes nothing. *)
Lemma add_weight_entry_internal_idempotent (d : db) (uid : Z) (w : Q)
      (day : date) :
  exists d1 : db,
    add_weight_entry_internal d uid w day = Py.Ok d1
    /\ add_weight_entry_internal d1 uid w day = Py.Ok d1.
Proof.
  unfold add_weight_entry_internal at 1.
  destruct (select_user d uid) as [user |] eqn:Hu.
  2:{ exists d. split; [reflexivity |].
      unfold add_weight_entry_internal. rewrite Hu. reflexivity. }
  destruct (truthy_decimal (Users.height_cm user)) eqn:Ht; cbn [negb].
  2:{ exists d. split; [reflexivity |].
      unfold add_weight_entry_internal. rewrite Hu, Ht. reflexivity. }
  destruct (Users.height_cm user) as [h |] eqn:Hh; [| discriminate Ht].
  cbn [truthy_decimal] in Ht. apply Bool.negb_true_iff in Ht.
  cbn [py_float Py.bind]. rewrite (calculate_bmi_defined w h Ht).
  cbn [Py.bind]. eexists. split; [reflexivity |].
  unfold add_weight_entry_internal, select_user. cbn [users].
  rewrite select_user_update. unfold select_user in Hu. rewrite Hu.
  cbn [option_map Users.set_weight_kg Users.height_cm]. rewrite Hh.
  cbn [truthy_decimal]. rewrite Ht. cbn [negb py_float Py.bind].
  rewrite (calculate_bmi_defined w h Ht). cbn [Py.bind weight_tracking].
  rewrite upsert_weight_idempotent, update_user_weight_idempotent.
  reflexivity.
Qed.

Lemma add_weight_entry_times_fixed (n : nat) (d1 : db) (uid : Z) (w : Q)
      (day : date) :
  add_weight_entry_internal d1 uid w day = Py.Ok d1 ->
  add_weight_entry_times n d1 uid w day = Py.Ok d1.
Proof.
  intros H. induction n as [| n IH]; [reflexivity |].
  cbn [add_weight_entry_times]. rewrite H. exact IH.
Qed.

(** What is stored after a call for a user with a height. *)
Lemma add_weight_entry_internal_stored (d d1 : db) (uid : Z) (w : Q)
      (day : date) (user : Users.row) (h : Q) :
  select_user d uid = Some user ->
  Users.height_cm user = Some h ->
  ~ h == 0 ->
  add_weight_entry_internal d uid w day = Py.Ok d1 ->
  exists (r : Weights.row) (u1 : Users.row),
    weight_entry d1 day = Some r
    /\ Weights.weight_kg r = w
    /\ Weights.bmi r = Some (Py.round_ndigits (w / ((h / 100) ^ 2)) 2)
    /\ select_user d1 uid = Some u1
    /\ Users.weight_kg u1 = Some w.
Proof.
  intros Hu Hh Hnz. unfold add_weight_entry_internal. rewrite Hu, Hh.
  assert (Ht : Qeq_bool h 0 = false).
  { apply Bool.not_true_iff_false. rewrite Qeq_bool_iff. exact Hnz. }
  cbn [truthy_decimal]. rewrite Ht. cbn [negb py_float Py.bind].
  rewrite (calculate_bmi_defined w h Ht). cbn [Py.bind].
  intros H. injection H as <-.
  destruct (upsert_weight_entry (weight_tracking d)
              (Weights.mk uid w
                 (Some (Py.round_ndigits (w / ((h / 100) ^ 2)) 2)) day))
    as (r & Hr & Hw & Hb).
  exists r, (Users.set_weight_kg user w).
  unfold weight_entry, select_user. cbn [weight_tracking users].
  cbn [Weights.recorded_date Weights.weight_kg Weights.bmi] in Hr, Hw, Hb.
  rewrite select_user_update. unfold select_user in Hu. rewrite Hu.
  repeat split; assumption || reflexivity.
Qed.

(** ** Intake logging ([log_daily_intake]) *)

Lemma same_key_refl_quantity (uid fid : Z) (x q : Q) (day : date)
      (meal : string) :
  Intake.same_key (Intake.mk uid fid x day meal) (Intake.mk uid fid q day meal)
  = true.
Proof.
  unfold Intake.same_key. cbn. rewrite !Z.eqb_refl, String.eqb_refl.
  reflexivity.
Qed.

(** Without a row of the key the statement inserts one, at the end. *)
Lemma upsert_intake_absent (rows : list Intake.row) (new : Intake.row) :
  rows_with_key rows new = [] ->
  upsert_intake rows new = rows ++ [new].
Proof.
  unfold rows_with_key. induction rows as [| r rows IH]; [reflexivity |].
  cbn [filter upsert_intake]. destruct (Intake.same_key r new);
    [discriminate |].
  intros H. rewrite (IH H). reflexivity.
Qed.

(** With a row of the key, and none before it, the statement adds the new
    quantity to that row. *)
Lemma upsert_intake_present (rows : list Intake.row) (r new : Intake.row) :
  rows_with_key rows new = [] ->
  Intake.same_key r new = true ->
  upsert_intake (rows ++ [r]) new
  = rows ++ [Intake.set_quantity_g r
               (Intake.quantity_g r + Intake.quantity_g new)].
Proof.
  unfold rows_with_key. intros Hn Hr.
  induction rows as [| r0 rows IH]; cbn [List.app upsert_intake].
  - rewrite Hr. reflexivity.
  - cbn [filter] in Hn. destruct (Intake.same_key r0 new);
      [discriminate |].
    rewrite (IH Hn). reflexivity.
Qed.

Section Logging.

Variables (a : app) (today : date) (uid fid : Z) (food : Foods.row)
          (q : Q) (idx : Z) (meal : string) (day : date).

Hypothesis logged_in : current_user a = Some uid.
Hypothesis food_found : select_food (connection a) fid = Some food.
Hypothesis meal_chosen : Py.index Config.MEAL_TYPES (idx - 1) = Py.Ok meal.
Hypothesis not_future : (day <= today)%Z.
Hypothesis no_row :
  rows_with_key (daily_intake (connection a)) (Intake.mk uid fid q day meal)
  = [].

(** One log on a table whose last row is the key's row, with quantity [x]. *)
Lemma log_daily_intake_step (rows : list Intake.row) :
  log_daily_intake (with_daily_intake a rows) today fid q idx (Some day)
  = Py.Ok (with_daily_intake a
             (upsert_intake rows (Intake.mk uid fid q day meal))).
Proof.
  unfold log_daily_intake, with_daily_intake.
  cbn [current_user connection]. rewrite logged_in.
  unfold select_food in *. cbn [food_items]. rewrite food_found.
  rewrite meal_chosen. cbn [Py.bind].
  assert (Hd : (today <? day)%Z = false) by (apply Z.ltb_ge; exact not_future).
  rewrite Hd. reflexivity.
Qed.

Lemma with_daily_intake_same :
  with_daily_intake a (daily_intake (connection a)) = a.
Proof. destruct a as [[us fs di wt] cu]. reflexivity. Qed.

(** Further logs keep one row for the key and add [q] each time. *)
Lemma log_daily_intake_times_accumulates (n : nat) (x : Q) :
  exists x' : Q,
    log_daily_intake_times n
      (with_daily_intake a
         (daily_intake (connection a) ++ [Intake.mk uid fid x day meal]))
      today fid q idx (Some day)
    = Py.Ok (with_daily_intake a
               (daily_intake (connection a)
                ++ [Intake.mk uid fid x' day meal]))
    /\ x' == x + inject_Z (Z.of_nat n) * q.
Proof.
  revert x. induction n as [| n IH]; intros x.
  - exists x. split; [reflexivity |]. cbn. ring.
  - cbn [log_daily_intake_times]. rewrite log_daily_intake_step.
    cbn [Py.bind].
    rewrite (upsert_intake_present _ _ _ no_row
               (same_key_refl_quantity uid fid x q day meal)).
    destruct (IH (x + q)) as (x' & Hlog & Hx').
    exists x'. split; [exact Hlog |].
    rewrite Hx', Nat2Z.inj_succ. unfold Z.succ. rewrite inject_Z_succ. ring.
Qed.

(** After [n >= 1] identical logs on a table without the key there is one
    more row, the only one of the key, and it holds [n * q]. *)
Lemma log_daily_intake_times_new_key (n : nat) :
  (1 <= n)%nat ->
  exists (a_n : app) (r : Intake.row),
    log_daily_intake_times n a today fid q idx (Some day) = Py.Ok a_n
    /\ rows_with_key (daily_intake (connection a_n))
                     (Intake.mk uid fid q day meal) = [r]
    /\ Intake.quantity_g r == inject_Z (Z.of_nat n) * q
    /\ List.length (daily_intake (connection a_n))
       = S (List.length (daily_intake (connection a))).
Proof.
  destruct n as [| n]; [lia |]. intros _.
  cbn [log_daily_intake_times].
  pose proof (log_daily_intake_step (daily_intake (connection a))) as Hs.
  rewrite with_daily_intake_same in Hs. rewrite Hs. cbn [Py.bind].
  rewrite (upsert_intake_absent _ _ no_row).
  destruct (log_daily_intake_times_accumulates n q) as (x' & -> & Hx').
  eexists. exists (Intake.mk uid fid x' day meal).
  split; [reflexivity |].
  cbn [with_daily_intake connection daily_intake].
  unfold rows_with_key in *. rewrite filter_app, no_row.
  cbn [filter List.app]. rewrite same_key_refl_quantity.
  split; [reflexivity |]. split.
  - cbn [Intake.quantity_g]. rewrite Hx', Nat2Z.inj_succ. unfold Z.succ.
    rewrite inject_Z_succ. ring.
  - rewrite length_app. cbn. lia.
Qed.

End Logging.

(** ** Repeated upserts *)


(** ** Concrete instances on the sample data *)

(** The sample user, whose stored goal is zero, gets the recomputed goal:
    1648.75 * 1.55 = 2555.5625, rounded to 2556. *)
Lemma calculate_daily_calories_sample_user :
  calculate_daily_calories sample_db 1 = Py.Ok (Some 2556%Z).
Proof.
  destruct (calculate_daily_calories_stored_goal
              sample_db 1 sample_user 70 175 30
              eq_refl eq_refl eq_refl eq_refl) as [_ H].
  rewrite H; [vm_compute; reflexivity | left; reflexivity].
Defined.

(** Nothing is logged on day 101. *)
Lemma get_daily_summary_sample_day_101 :
  get_daily_summary sample_app 101%Z = Py.Ok None
  /\ get_daily_summary sample_app 101%Z <> Py.Ok (Some (mk_summary 0 0 0 0)).
Proof.
  exact (get_daily_summary_absent sample_app 1 101%Z eq_refl eq_refl).
Defined.

Lemma sample_foods_primary_key : NoDup (map Foods.food_id sample_foods).
Proof.
  cbn. repeat constructor; cbn; intuition discriminate.
Qed.

Lemma sample_records_have_food (r : Intake.row) :
  In r (day_records sample_db 1 100%Z) -> has_food sample_db r.
Proof.
  cbn. intros [<- | [<- | []]]; eexists; (split; [reflexivity |]);
    cbn; repeat split; discriminate.
Qed.

(** Day 100 of the sample: 150 g of apple and 120 g of banana. *)
Lemma get_daily_summary_sample_day_100 :
  (exists s : summary,
      get_daily_summary sample_app 100%Z = Py.Ok (Some s)
      /\ total_calories s == 184.8
      /\ total_protein s == 1.77
      /\ total_carbs s == 48.6
      /\ total_fat s == 0.66)
  /\ outcome_equiv (get_daily_summary (scale_quantities 2 sample_app) 100%Z)
                   (scale_outcome 2 (get_daily_summary sample_app 100%Z)).
Proof.
  assert (Hne : day_records (connection sample_app) 1 100%Z <> [])
    by (cbn; discriminate).
  destruct (get_daily_summary_sum_order_linear
              sample_app 1 100%Z eq_refl sample_foods_primary_key Hne
              sample_records_have_food)
    as ((s & Hs & Hc & Hp & Hb & Hf) & _ & Hscale).
  split; [| exact Hscale].
  exists s. split; [exact Hs |].
  rewrite Hc, Hp, Hb, Hf. repeat split; vm_compute; reflexivity.
Defined.


(* ====================================================================== *)
(** * Part III.  Further properties of the code                             *)
(* ====================================================================== *)

(** ** More arithmetic of [round] *)

Lemma Qfloor_unique (x : Q) (z : Z) :
  inject_Z z <= x -> x < inject_Z (z + 1) -> Qfloor x = z.
Proof.
  intros Hlo Hhi.
  pose proof (Qfloor_le x) as H1. pose proof (Qlt_floor x) as H2.
  assert (Ha : (z < Qfloor x + 1)%Z).
  { rewrite Zlt_Qlt. eapply Qle_lt_trans; eassumption. }
  assert (Hb : (Qfloor x < z + 1)%Z).
  { rewrite Zlt_Qlt. eapply Qle_lt_trans; eassumption. }
  lia.
Qed.

Lemma round_comp (x y : Q) : x == y -> Py.round x = Py.round y.
Proof.
  intros H. unfold Py.round. rewrite (Qfloor_comp x y H).
  assert (E : (x - inject_Z (Qfloor y) ?= 1 # 2)
              = (y - inject_Z (Qfloor y) ?= 1 # 2)).
  { apply Qcompare_comp; [rewrite H; reflexivity | reflexivity]. }
  rewrite E. reflexivity.
Qed.

(** Adding an even integer commutes with [round]. *)
Lemma round_add_even (x : Q) (n : Z) :
  Z.even n = true -> Py.round (x + inject_Z n) = (Py.round x + n)%Z.
Proof.
  intros Hn. unfold Py.round.
  assert (Hf : Qfloor (x + inject_Z n) = (Qfloor x + n)%Z).
  { apply Qfloor_unique.
    - rewrite inject_Z_plus. pose proof (Qfloor_le x). lra.
    - replace (Qfloor x + n + 1)%Z with ((Qfloor x + 1) + n)%Z by lia.
      rewrite inject_Z_plus. pose proof (Qlt_floor x). lra. }
  rewrite Hf.
  assert (E : (x + inject_Z n - inject_Z (Qfloor x + n) ?= 1 # 2)
              = (x - inject_Z (Qfloor x) ?= 1 # 2)).
  { apply Qcompare_comp; [rewrite inject_Z_plus; ring | reflexivity]. }
  rewrite E, Z.even_add, Hn.
  destruct (x - inject_Z (Qfloor x) ?= 1 # 2); try lia.
  destruct (Z.even (Qfloor x)); cbn; lia.
Qed.

(** [round] is monotone. *)
Lemma round_monotone (x y : Q) : x <= y -> (Py.round x <= Py.round y)%Z.
Proof.
  intros Hxy.
  destruct (Z_le_gt_dec (Py.round x) (Py.round y)) as [H | H]; [exact H |].
  exfalso.
  assert (Hz : (Py.round y + 1 <= Py.round x)%Z) by lia.
  rewrite Zle_Qle, inject_Z_succ in Hz.
  pose proof (round_bounds x) as [_ Hx]. pose proof (round_bounds y) as [Hy _].
  assert (E : x == y) by lra.
  rewrite (round_comp x y E) in H. lia.
Qed.

Lemma round_ndigits_2_monotone (x y : Q) :
  x <= y -> Py.round_ndigits x 2 <= Py.round_ndigits y 2.
Proof.
  intros H. rewrite !round_ndigits_2, !Qdiv_100.
  assert (Hr : (Py.round (x * 100) <= Py.round (y * 100))%Z)
    by (apply round_monotone; lra).
  rewrite Zle_Qle in Hr. lra.
Qed.

Lemma round_ndigits_2_nonneg (x : Q) : 0 <= x -> 0 <= Py.round_ndigits x 2.
Proof.
  intros H. apply (round_ndigits_2_monotone 0 x) in H.
  assert (E : Py.round_ndigits 0 2 == 0) by reflexivity.
  rewrite E in H. exact H.
Qed.

(** ** BMI ([calculate_bmi]) *)

(** X1.  [calculate_bmi] raises [ZeroDivisionError] exactly for a zero
    height; for every other height it returns a whole number of hundredths
    within 0.005 of [weight / (height / 100)^2], and never a negative one for
    a non-negative weight. *)
Theorem calculate_bmi_zero_height_or_rounded (weight height : Q) :
  (height == 0 ->
   calculate_bmi weight height = Py.Raise Py.ZeroDivisionError)
  /\ (~ height == 0 ->
      exists bmi : Q,
        calculate_bmi weight height = Py.Ok bmi
        /\ weight / ((height / 100) ^ 2) - 0.005 <= bmi
           <= weight / ((height / 100) ^ 2) + 0.005
        /\ (exists k : Z, bmi == inject_Z k / 100)
        /\ (0 <= weight -> 0 <= bmi)).
Proof.
  split.
  - intros H. unfold calculate_bmi.
    assert (E : Qeq_bool ((height / 100) ^ 2) 0 = true).
    { apply Qeq_bool_iff. rewrite H. reflexivity. }
    rewrite E. reflexivity.
  - intros H.
    assert (Hb : Qeq_bool height 0 = false).
    { apply Bool.not_true_iff_false. rewrite Qeq_bool_iff. exact H. }
    rewrite (calculate_bmi_defined weight height Hb).
    eexists. split; [reflexivity |]. split; [| split].
    + apply round_ndigits_2_bounds.
    + apply round_ndigits_2_hundredths.
    + intros Hw. apply round_ndigits_2_nonneg.
      change ((height / 100) ^ 2) with ((height / 100) * (height / 100)).
      assert (Hsq : 0 <= (height / 100) * (height / 100)).
      { destruct (Qlt_le_dec (height / 100) 0) as [Hn | Hp].
        - setoid_replace ((height / 100) * (height / 100))
            with ((- (height / 100)) * (- (height / 100))) by ring.
          apply Qmult_le_0_compat; lra.
        - apply Qmult_le_0_compat; exact Hp. }
      apply Qle_shift_div_l.
      * apply Qle_lteq in Hsq. destruct Hsq as [Hlt | Heq]; [exact Hlt |].
        exfalso. symmetry in Heq. apply Qmult_integral in Heq.
        assert (H0 : height / 100 == 0) by tauto.
        rewrite Qdiv_100 in H0. apply H. lra.
      * lra.
Qed.

(** ** BMR ([calculate_bmr_static]), continued *)


(** X3.  The BMR never decreases when weight or height grow, and never
    increases with age. *)
Theorem calculate_bmr_static_monotone (w w' h h' : Q) (a a' : Z) (g : string) :
  w <= w' -> h <= h' -> (a' <= a)%Z ->
  calculate_bmr_static w h a g <= calculate_bmr_static w' h' a' g.
Proof.
  intros Hw Hh Ha. unfold calculate_bmr_static.
  rewrite Zle_Qle in Ha.
  destruct (String.eqb (Py.lower g) "male");
    apply round_ndigits_2_monotone; lra.
Qed.

(** ** Health recommendation ([get_bmi_recommendation]) *)

(** X4.  [get_bmi_recommendation] gives the advice of the range the BMI lies
    in, and the general advice to consult a professional exactly for a BMI
    below 0 or from 100 on. *)
Theorem get_bmi_recommendation_ranges (bmi : Q) :
  (0 <= bmi < 18.5 ->
   get_bmi_recommendation bmi
   = "Consider consulting a nutritionist to develop a healthy weight gain plan."%string)
  /\ (18.5 <= bmi < 25 ->
      get_bmi_recommendation bmi
      = "Great job! Maintain your current lifestyle and healthy eating habits."%string)
  /\ (25 <= bmi < 30 ->
      get_bmi_recommendation bmi
      = "Consider increasing physical activity and reviewing your diet with a professional."%string)
  /\ (30 <= bmi < 100 ->
      get_bmi_recommendation bmi
      = "We recommend consulting a healthcare provider for a personalized weight management plan."%string)
  /\ (get_bmi_recommendation bmi
      = "Consult a healthcare professional for personalized advice."%string
      <-> bmi < 0 \/ 100 <= bmi).
Proof.
  unfold get_bmi_recommendation, get_bmi_category.
  cbn [first_bmi_category Config.BMI_CATEGORIES].
  cases_on_tests; cbn [andb];
    repeat match goal with |- _ /\ _ => split end;
    try (intros [? ?]; try reflexivity; exfalso; lra);
    (split; [intros Hc; try discriminate Hc; lra
            | intros Hr; try reflexivity; exfalso; lra]).
Qed.

(** ** Console input ([get_choice], [get_positive_int]) *)

(** X5.  [get_choice] returns the first typed line that, stripped, is one of
    the options: the lines before it are not options, the lines after it are
    left to be read; when no line is an option it ends in [EOFError]. *)
Theorem get_choice_first_option (options inputs : list string) :
  match get_choice inputs options with
  | Py.Ok (choice, rest) =>
      exists (skipped : list string) (line : string),
        inputs = skipped ++ line :: rest
        /\ choice = Py.strip line
        /\ In choice options
        /\ Forall (fun l => ~ In (Py.strip l) options) skipped
  | Py.Raise e =>
      e = Py.EOFError
      /\ Forall (fun l => ~ In (Py.strip l) options) inputs
  end.
Proof.
  assert (Hc : forall x, Py.contains options x = true <-> In x options).
  { intros x. unfold Py.contains. rewrite existsb_exists. split.
    - intros (y & Hy & E). apply String.eqb_eq in E. subst y. exact Hy.
    - intros H. exists x. split; [exact H | apply String.eqb_refl]. }
  induction inputs as [| line inputs IH]; cbn [get_choice].
  - split; [reflexivity | constructor].
  - destruct (Py.contains options (Py.strip line)) eqn:E.
    + exists [], line. cbn [List.app]. apply Hc in E.
      split; [reflexivity |]. split; [reflexivity |].
      split; [exact E | constructor].
    + assert (Hn : ~ In (Py.strip line) options).
      { intros H. apply Hc in H. congruence. }
      destruct (get_choice inputs options) as [[choice rest] | e].
      * destruct IH as (skipped & l & -> & -> & Hin & Hsk).
        exists (line :: skipped), l. cbn [List.app].
        split; [reflexivity |]. split; [reflexivity |].
        split; [exact Hin | constructor; assumption].
      * destruct IH as [-> Hall]. split; [reflexivity |].
        constructor; assumption.
Qed.

(** X6.  Whatever is typed, a value [get_positive_int] returns is the
    reading of a typed line, is at least [min_value], and is at most
    [max_value] when that is given and not zero; with a [max_value] of 0
    every reading from [min_value] on is accepted at once. *)
Theorem get_positive_int_bounds (int_of_line : string -> option Z)
        (inputs rest : list string) (min_value value : Z)
        (max_value : option Z) :
  get_positive_int int_of_line inputs min_value max_value
  = Py.Ok (value, rest) ->
  (min_value <= value)%Z
  /\ (forall m : Z, max_value = Some m -> m <> 0%Z -> (value <= m)%Z)
  /\ (exists (skipped : list string) (line : string),
         inputs = skipped ++ line :: rest /\ int_of_line line = Some value)
  /\ (forall (line : string) (more : list string) (v : Z),
         int_of_line line = Some v ->
         (min_value <= v)%Z ->
         get_positive_int int_of_line (line :: more) min_value (Some 0%Z)
         = Py.Ok (v, more)).
Proof.
  intros Hres.
  assert (Hzero : forall (line : string) (more : list string) (v : Z),
             int_of_line line = Some v ->
             (min_value <= v)%Z ->
             get_positive_int int_of_line (line :: more) min_value (Some 0%Z)
             = Py.Ok (v, more)).
  { intros line more v Hv Hmin. cbn [get_positive_int]. rewrite Hv.
    apply Z.ltb_ge in Hmin. rewrite Hmin. reflexivity. }
  revert Hres.
  induction inputs as [| line inputs IH]; cbn [get_positive_int];
    [discriminate |].
  assert (Hskip : get_positive_int int_of_line inputs min_value max_value
                  = Py.Ok (value, rest) ->
                  (min_value <= value)%Z
                  /\ (forall m : Z,
                         max_value = Some m -> m <> 0%Z -> (value <= m)%Z)
                  /\ (exists (skipped : list string) (l : string),
                         line :: inputs = skipped ++ l :: rest
                         /\ int_of_line l = Some value)
                  /\ (forall (l : string) (more : list string) (v : Z),
                         int_of_line l = Some v ->
                         (min_value <= v)%Z ->
                         get_positive_int int_of_line (l :: more) min_value
                                          (Some 0%Z)
                         = Py.Ok (v, more))).
  { intros H. destruct (IH H) as (H1 & H2 & (skipped & l & -> & Hl) & _).
    split; [exact H1 |]. split; [exact H2 |]. split; [| exact Hzero].
    exists (line :: skipped), l. split; [reflexivity | exact Hl]. }
  destruct (int_of_line line) as [v |] eqn:Hv; [| exact Hskip].
  destruct (v <? min_value)%Z eqn:Hmin; [exact Hskip |].
  destruct (truthy_int max_value
            && match max_value with
               | Some m => (m <? v)%Z
               | None => false
               end) eqn:Hmax; [exact Hskip |].
  intros H. injection H as <- <-.
  apply Z.ltb_ge in Hmin. split; [exact Hmin |]. split; [| split].
  - intros m -> Hm. cbn [truthy_int] in Hmax.
    apply Z.eqb_neq in Hm. rewrite Hm in Hmax. cbn [negb andb] in Hmax.
    apply Z.ltb_ge in Hmax. exact Hmax.
  - exists [], line. split; [reflexivity | exact Hv].
  - exact Hzero.
Qed.

(** ** Validators *)

Lemma contains_char_app (c : ascii) (s t : string) :
  contains_char c (s ++ t)%string = contains_char c s || contains_char c t.
Proof.
  induction s as [| x s IH]; [reflexivity |].
  cbn [String.append contains_char]. rewrite IH. apply Bool.orb_assoc.
Qed.

(** Splitting at the first separator: the piece before it has none. *)
Lemma split_char_first (sep : ascii) (s t : string) :
  contains_char sep s = false ->
  split_char sep (s ++ String sep t)%string = s :: split_char sep t.
Proof.
  induction s as [| x s IH]; cbn [String.append split_char contains_char].
  - intros _. rewrite Ascii.eqb_refl. reflexivity.
  - intros H. apply Bool.orb_false_iff in H. destruct H as [Hx Hs].
    rewrite Hx, (IH Hs). reflexivity.
Qed.

Lemma split_char_none (sep : ascii) (s : string) :
  contains_char sep s = false -> split_char sep s = [s].
Proof.
  induction s as [| x s IH]; cbn [split_char contains_char];
    [reflexivity |].
  intros H. apply Bool.orb_false_iff in H. destruct H as [Hx Hs].
  rewrite Hx, (IH Hs). reflexivity.
Qed.

Lemma index_second {A : Type} (p q : A) (ps : list A) :
  Py.index (p :: q :: ps) 1 = Py.Ok q.
Proof.
  unfold Py.index. cbn [Z.ltb Z.compare].
  assert (H : (1 <? Z.of_nat (List.length (p :: q :: ps)))%Z = true).
  { apply Z.ltb_lt. cbn [List.length]. lia. }
  rewrite H. reflexivity.
Qed.

(** X7.  [validate_email] never raises.  An address without "@" is refused;
    otherwise only the piece between the first "@" and the next one (or the
    end) counts: the address is accepted exactly when that piece has a ".",
    whatever comes before the first "@" or after a second one. *)
Theorem validate_email_domain_piece (local piece rest : string) :
  contains_char "@" local = false ->
  contains_char "@" piece = false ->
  validate_email local = Py.Ok false
  /\ validate_email (local ++ String "@" piece)
     = Py.Ok (contains_char "." piece)
  /\ validate_email (local ++ String "@" (piece ++ String "@" rest))
     = Py.Ok (contains_char "." piece)
  /\ (forall email : string, exists b : bool, validate_email email = Py.Ok b).
Proof.
  intros Hl Hp.
  assert (Hat : forall t, contains_char "@" (local ++ String "@" t) = true).
  { intros t. rewrite contains_char_app. cbn [contains_char].
    rewrite Ascii.eqb_refl. cbn. apply Bool.orb_true_r. }
  split; [| split; [| split]].
  - unfold validate_email. rewrite Hl. reflexivity.
  - unfold validate_email. rewrite Hat, (split_char_first _ _ _ Hl).
    rewrite (split_char_none _ _ Hp), index_second. reflexivity.
  - unfold validate_email. rewrite Hat, (split_char_first _ _ _ Hl).
    rewrite (split_char_first _ _ _ Hp), index_second. reflexivity.
  - intros email. unfold validate_email.
    destruct (contains_char "@" email) eqn:E; [| eexists; reflexivity].
    assert (Hlen : forall s : string,
               contains_char "@" s = true ->
               exists p q ps, split_char "@" s = p :: q :: ps).
    { induction s as [| x s IH]; cbn [contains_char split_char];
        [discriminate |].
      destruct (Ascii.eqb x "@") eqn:Ex.
      - intros _. pose proof (split_char_none "@" EmptyString eq_refl).
        destruct (split_char "@" s) as [| q ps] eqn:Es.
        + exfalso. clear -Es. destruct s as [| y s]; cbn in Es;
            [discriminate |].
          destruct (Ascii.eqb y "@"); [discriminate |].
          destruct (split_char "@" s); discriminate.
        + eexists _, _, _. reflexivity.
      - cbn [orb]. intros Hs. destruct (IH Hs) as (p & q & ps & ->).
        eexists _, _, _. reflexivity. }
    destruct (Hlen email E) as (p & q & ps & ->).
    rewrite index_second. eexists. reflexivity.
Qed.

(** For a password of ASCII characters, [validate_password] accepts
    exactly the passwords of six characters or more that hold a digit and a
    letter; a refusal names the first rule broken, in the order length,
    digit, letter. *)
Lemma validate_password_rules (password : string) :
  ascii_only password = true ->
  (fst (validate_password password) = true
   <-> (6 <= String.length password)%nat
       /\ any_char isdigit password = true
       /\ any_char isalpha password = true)
  /\ ((String.length password < 6)%nat ->
      validate_password password
      = (false, "Password must be at least 6 characters long"%string))
  /\ ((6 <= String.length password)%nat ->
      any_char isdigit password = false ->
      validate_password password
      = (false, "Password must contain at least one digit"%string))
  /\ ((6 <= String.length password)%nat ->
      any_char isdigit password = true ->
      any_char isalpha password = false ->
      validate_password password
      = (false, "Password must contain at least one letter"%string)).
Proof.
  intros _. unfold validate_password.
  destruct (String.length password <? 6)%nat eqn:El.
  - apply Nat.ltb_lt in El. repeat split; cbn; intros; try lia;
      try discriminate; try reflexivity.
  - apply Nat.ltb_ge in El.
    destruct (any_char isdigit password) eqn:Ed,
             (any_char isalpha password) eqn:Ea; cbn;
      repeat split; intros; try lia; try discriminate; try reflexivity;
      try tauto; try (destruct H as (_ & ? & ?); discriminate).
Qed.

(** ** The progress bar ([print_progress_bar]) *)

Lemma int_bounds_nonneg (x : Q) (n : Z) :
  0 <= x -> x <= inject_Z n -> (0 <= Py.int x <= n)%Z.
Proof.
  intros H0 Hn. rewrite int_trunc_toward_zero. unfold trunc_toward_zero.
  assert (E : Py.Qltb x 0 = false) by (apply Qltb_ge; exact H0).
  rewrite E. split.
  - change 0%Z with (Qfloor 0). apply Qfloor_resp_le. exact H0.
  - rewrite <- (Qfloor_Z n). apply Qfloor_resp_le. exact Hn.
Qed.

Lemma progress_percentage_range (current target : Q) :
  0 <= current -> 0 <= progress_percentage current target <= 100.
Proof.
  intros Hc. unfold progress_percentage, py_min.
  destruct (Qle_bool target 0) eqn:Et; [split; lra |].
  apply Qle_bool_false in Et.
  destruct (Py.Qltb 100 (current / target * 100)) eqn:E.
  - split; lra.
  - apply Qltb_ge in E. split; [| exact E].
    apply Qmult_le_0_compat; [| lra].
    apply Qle_shift_div_l; [exact Et | lra].
Qed.

(** X8.  For a non-negative amount and width the bar of
    [print_progress_bar] has exactly [width] cells, the filled ones first;
    the percentage lies between 0 and 100, is 0 for a target that is not
    positive, and the bar is full once the amount reaches a positive
    target. *)
Theorem print_progress_bar_width (current target : Q) (width : Z) :
  0 <= current ->
  (0 <= width)%Z ->
  let bar := fst (fst (print_progress_bar current target width)) in
  let percentage := snd (print_progress_bar current target width) in
  List.length bar = Z.to_nat width
  /\ bar = repeat Filled (Z.to_nat (progress_filled current target width))
           ++ repeat Blank
                (Z.to_nat (width - progress_filled current target width))
  /\ (0 <= progress_filled current target width <= width)%Z
  /\ 0 <= percentage <= 100
  /\ (target <= 0 -> percentage == 0 /\ bar = repeat Blank (Z.to_nat width))
  /\ (0 < target -> target <= current ->
      percentage == 100 /\ bar = repeat Filled (Z.to_nat width)).
Proof.
  intros Hc Hw. cbn [print_progress_bar fst snd].
  pose proof (progress_percentage_range current target Hc) as [Hp0 Hp1].
  assert (Hf : (0 <= progress_filled current target width <= width)%Z).
  { unfold progress_filled. apply int_bounds_nonneg.
    - rewrite Qdiv_100. rewrite Zle_Qle in Hw.
      apply Qmult_le_0_compat; [| lra].
      apply Qmult_le_0_compat; assumption.
    - rewrite Qdiv_100. rewrite Zle_Qle in Hw.
      assert (H : inject_Z width * progress_percentage current target
                  <= inject_Z width * 100).
      { rewrite !(Qmult_comm (inject_Z width)).
        apply Qmult_le_compat_r; assumption. }
      lra. }
  split; [| split; [reflexivity | split; [exact Hf | split; [tauto |]]]].
  - rewrite length_app, !repeat_length. lia.
  - split.
    + intros Ht.
      assert (E : progress_percentage current target = 0).
      { unfold progress_percentage. apply Qle_bool_iff in Ht. rewrite Ht.
        reflexivity. }
      unfold progress_filled. rewrite E. split; [reflexivity |].
      assert (Ez : Py.int (inject_Z width * 0 / 100) = 0%Z).
      { rewrite int_trunc_toward_zero.
        rewrite (trunc_toward_zero_comp _ 0) by (rewrite Qdiv_100; ring).
        reflexivity. }
      rewrite Ez, Z.sub_0_r. reflexivity.
    + intros Ht Htc.
      assert (E : progress_percentage current target == 100).
      { unfold progress_percentage, py_min.
        assert (Et : Qle_bool target 0 = false)
          by (apply Qle_bool_false; exact Ht).
        rewrite Et.
        assert (Hge : 100 <= current / target * 100).
        { assert (H1 : 1 <= current / target).
          { apply Qle_shift_div_l; [exact Ht | lra]. }
          lra. }
        destruct (Py.Qltb 100 (current / target * 100)) eqn:El;
          [reflexivity |].
        apply Qltb_ge in El. lra. }
      split; [exact E |].
      unfold progress_filled.
      assert (Ez : Py.int (inject_Z width
                           * progress_percentage current target / 100)
                   = width).
      { rewrite int_trunc_toward_zero.
        rewrite (trunc_toward_zero_comp _ (inject_Z width))
          by (rewrite Qdiv_100, E; ring).
        unfold trunc_toward_zero.
        assert (En : Py.Qltb (inject_Z width) 0 = false).
        { apply Qltb_ge. rewrite Zle_Qle in Hw. exact Hw. }
        rewrite En. apply Qfloor_Z. }
      rewrite Ez, Z.sub_diag. cbn [Z.to_nat repeat]. apply app_nil_r.
Qed.

(** ** The daily report ([show_daily_report]) *)



(** ** Logging and the summary *)

Lemma same_key_fields (r new : Intake.row) :
  Intake.same_key r new = true
  <-> Intake.user_id r = Intake.user_id new
      /\ Intake.food_id r = Intake.food_id new
      /\ Intake.intake_date r = Intake.intake_date new
      /\ Intake.meal_type r = Intake.meal_type new.
Proof.
  unfold Intake.same_key.
  rewrite !Bool.andb_true_iff, !Z.eqb_eq, String.eqb_eq. tauto.
Qed.

(** A log for another user or day leaves the records of the day alone. *)
Lemma day_records_upsert_other (rows : list Intake.row) (new : Intake.row)
      (uid : Z) (day : date) :
  (Intake.user_id new =? uid)%Z && (Intake.intake_date new =? day)%Z = false ->
  filter (fun r => (Intake.user_id r =? uid)%Z
                   && (Intake.intake_date r =? day)%Z)
         (upsert_intake rows new)
  = filter (fun r => (Intake.user_id r =? uid)%Z
                     && (Intake.intake_date r =? day)%Z)
           rows.
Proof.
  intros Hnew. induction rows as [| r rows IH]; cbn [upsert_intake filter].
  - rewrite Hnew. reflexivity.
  - destruct (Intake.same_key r new) eqn:K; cbn [filter].
    + apply same_key_fields in K. destruct K as (Ku & _ & Kd & _).
      cbn [Intake.set_quantity_g Intake.user_id Intake.intake_date].
      rewrite Ku, Kd, Hnew. reflexivity.
    + rewrite IH. reflexivity.
Qed.

(** The outcome of [log_daily_intake]: the session itself, or the session
    with the upsert done. *)
Lemma log_daily_intake_outcome (a a' : app) (today : date) (fid : Z) (q : Q)
      (idx : Z) (intake_date : option date) :
  log_daily_intake a today fid q idx intake_date = Py.Ok a' ->
  a' = a
  \/ exists (uid : Z) (food : Foods.row) (meal : string) (day : date),
       current_user a = Some uid
       /\ select_food (connection a) fid = Some food
       /\ Py.index Config.MEAL_TYPES (idx - 1) = Py.Ok meal
       /\ intake_date = Some day
       /\ (day <= today)%Z
       /\ a' = with_daily_intake a
                 (upsert_intake (daily_intake (connection a))
                                (Intake.mk uid fid q day meal)).
Proof.
  unfold log_daily_intake.
  destruct (current_user a) as [uid |] eqn:Hu;
    [| intros H; injection H as <-; left; reflexivity].
  destruct (select_food (connection a) fid) as [food |] eqn:Hf;
    [| intros H; injection H as <-; left; reflexivity].
  destruct (Py.index Config.MEAL_TYPES (idx - 1)) as [meal | e] eqn:Hm;
    cbn [Py.bind]; [| discriminate].
  destruct intake_date as [day |];
    [| intros H; injection H as <-; left; reflexivity].
  destruct (today <? day)%Z eqn:Hd;
    [intros H; injection H as <-; left; reflexivity |].
  intros H. injection H as <-. right.
  exists uid, food, meal, day. apply Z.ltb_ge in Hd.
  unfold with_daily_intake. rewrite Hu. repeat split; assumption || reflexivity.
Qed.

(** The summary reads the intake table only through the records of the day. *)
Lemma get_daily_summary_day_records (a : app) (rows' : list Intake.row)
      (uid : Z) (day : date) :
  current_user a = Some uid ->
  filter (fun r => (Intake.user_id r =? uid)%Z
                   && (Intake.intake_date r =? day)%Z) rows'
  = day_records (connection a) uid day ->
  get_daily_summary (with_daily_intake a rows') day = get_daily_summary a day.
Proof.
  intros Hu Hr.
  assert (E : intake_of_day (connection (with_daily_intake a rows')) uid day
              = intake_of_day (connection a) uid day).
  { rewrite !intake_of_day_records. unfold day_records in *.
    cbn [with_daily_intake connection daily_intake food_items].
    rewrite Hr. reflexivity. }
  unfold get_daily_summary.
  change (current_user (with_daily_intake a rows')) with (current_user a).
  rewrite Hu, E. reflexivity.
Qed.

(** X11.  Logging food for one day never changes the summary of another
    day, and logging as one user never changes the summary another user
    gets. *)
Theorem log_daily_intake_other_day (a a' : app) (today : date) (fid : Z)
        (q : Q) (idx : Z) (logged day : date) (uid other : Z) :
  log_daily_intake a today fid q idx (Some logged) = Py.Ok a' ->
  current_user a = Some uid ->
  (logged <> day ->
   get_daily_summary a' day = get_daily_summary a day)
  /\ (other <> uid ->
      get_daily_summary (mk_app (connection a') (Some other)) logged
      = get_daily_summary (mk_app (connection a) (Some other)) logged).
Proof.
  intros Hlog Hu.
  destruct (log_daily_intake_outcome _ _ _ _ _ _ _ Hlog)
    as [-> | (uid' & food & meal & d & Hu' & _ & _ & Hd & _ & ->)];
    [split; reflexivity |].
  injection Hd as <-. rewrite Hu in Hu'. injection Hu' as <-. split.
  - intros Hne. apply (get_daily_summary_day_records a _ uid day Hu).
    apply day_records_upsert_other. cbn [Intake.user_id Intake.intake_date].
    apply Z.eqb_neq in Hne. rewrite Hne. apply Bool.andb_false_r.
  - intros Hne.
    apply (get_daily_summary_day_records
             (mk_app (connection a) (Some other)) _ other logged eq_refl).
    apply day_records_upsert_other. cbn [Intake.user_id Intake.intake_date].
    apply not_eq_sym in Hne. apply Z.eqb_neq in Hne. rewrite Hne.
    reflexivity.
Qed.

(** The records of the day after a log for that day: every food id is an
    old one or the logged one. *)
Lemma day_records_upsert_food (rows : list Intake.row) (new : Intake.row)
      (uid : Z) (day : date) (P : Z -> Prop) :
  (forall r,
      In r (filter (fun r => (Intake.user_id r =? uid)%Z
                             && (Intake.intake_date r =? day)%Z) rows) ->
      P (Intake.food_id r)) ->
  P (Intake.food_id new) ->
  forall r,
    In r (filter (fun r => (Intake.user_id r =? uid)%Z
                           && (Intake.intake_date r =? day)%Z)
                 (upsert_intake rows new)) ->
    P (Intake.food_id r).
Proof.
  intros Hold Hnew. induction rows as [| r0 rows IH];
    cbn [upsert_intake]; intros r Hin.
  - apply filter_In in Hin. destruct Hin as [[<- | []] _]. exact Hnew.
  - destruct (Intake.same_key r0 new) eqn:K.
    + apply filter_In in Hin. destruct Hin as [[<- | Hin] Hp].
      * apply same_key_fields in K. destruct K as (_ & Kf & _).
        cbn [Intake.set_quantity_g Intake.food_id]. rewrite Kf. exact Hnew.
      * apply Hold. apply filter_In. split; [right; exact Hin | exact Hp].
    + apply filter_In in Hin. destruct Hin as [[<- | Hin] Hp].
      * apply Hold. apply filter_In. split; [left; reflexivity | exact Hp].
      * apply IH.
        -- intros r' Hr'. apply Hold. apply filter_In in Hr'.
           destruct Hr' as [Hr1 Hr2]. apply filter_In.
           split; [right; exact Hr1 | exact Hr2].
        -- apply filter_In. split; assumption.
Qed.

(** The sum the specification writes, after a log for the day: the logged
    quantity's share is added. *)
Lemma scaled_total_upsert (d : db) (column : Foods.row -> option Q)
      (rows : list Intake.row) (new : Intake.row) (uid : Z) (day : date) :
  (Intake.user_id new =? uid)%Z && (Intake.intake_date new =? day)%Z = true ->
  scaled_total d column
    (filter (fun r => (Intake.user_id r =? uid)%Z
                      && (Intake.intake_date r =? day)%Z)
            (upsert_intake rows new))
  == scaled_total d column
       (filter (fun r => (Intake.user_id r =? uid)%Z
                         && (Intake.intake_date r =? day)%Z)
               rows)
     + Intake.quantity_g new / 100 * per_100g d column (Intake.food_id new).
Proof.
  intros Hnew. unfold scaled_total, Qsum.
  induction rows as [| r rows IH]; cbn [upsert_intake filter].
  - rewrite Hnew. cbn [map fold_right]. ring.
  - destruct (Intake.same_key r new) eqn:K.
    + apply same_key_fields in K. destruct K as (Ku & Kf & Kd & _).
      cbn [filter Intake.set_quantity_g Intake.user_id Intake.intake_date].
      rewrite Ku, Kd, Hnew.
      cbn [map fold_right Intake.quantity_g Intake.food_id].
      cbn [Intake.set_quantity_g Intake.quantity_g Intake.food_id].
      rewrite Kf, !Qdiv_100. ring.
    + cbn [filter].
      destruct ((Intake.user_id r =? uid)%Z
                && (Intake.intake_date r =? day)%Z).
      * cbn [map fold_right]. rewrite IH. ring.
      * exact IH.
Qed.

Lemma day_records_upsert_nonempty (rows : list Intake.row) (new : Intake.row)
      (uid : Z) (day : date) :
  (Intake.user_id new =? uid)%Z && (Intake.intake_date new =? day)%Z = true ->
  filter (fun r => (Intake.user_id r =? uid)%Z
                   && (Intake.intake_date r =? day)%Z)
         (upsert_intake rows new) <> [].
Proof.
  intros Hnew. induction rows as [| r rows IH]; cbn [upsert_intake filter].
  - rewrite Hnew. discriminate.
  - destruct (Intake.same_key r new) eqn:K.
    + apply same_key_fields in K. destruct K as (Ku & _ & Kd & _).
      cbn [filter Intake.set_quantity_g Intake.user_id Intake.intake_date].
      rewrite Ku, Kd, Hnew. discriminate.
    + cbn [filter]. destruct ((Intake.user_id r =? uid)%Z
                              && (Intake.intake_date r =? day)%Z);
        [discriminate | exact IH].
Qed.

(** The totals of a day whose records all have their food. *)
Lemma get_daily_summary_totals (a : app) (uid : Z) (day : date) :
  current_user a = Some uid ->
  NoDup (map Foods.food_id (food_items (connection a))) ->
  (forall r, In r (day_records (connection a) uid day) ->
             has_food (connection a) r) ->
  (day_records (connection a) uid day = []
   /\ get_daily_summary a day = Py.Ok None)
  \/ (day_records (connection a) uid day <> []
      /\ exists s : summary,
           get_daily_summary a day = Py.Ok (Some s)
           /\ total_calories s
              == scaled_total (connection a) Foods.calories_per_100g
                              (day_records (connection a) uid day)
           /\ total_protein s
              == scaled_total (connection a) Foods.protein_g
                              (day_records (connection a) uid day)
           /\ total_carbs s
              == scaled_total (connection a) Foods.carbs_g
                              (day_records (connection a) uid day)
           /\ total_fat s
              == scaled_total (connection a) Foods.fat_g
                              (day_records (connection a) uid day)).
Proof.
  intros Hu Hpk Hfood.
  assert (Hcol : forall column : Foods.row -> option Q,
             (forall f, complete_food f -> column f <> None) ->
             forall r, In r (day_records (connection a) uid day) ->
                       exists f v,
                         select_food (connection a) (Intake.food_id r) = Some f
                         /\ column f = Some v).
  { intros column Hc r Hr. destruct (Hfood r Hr) as (f & Hf & Hm).
    specialize (Hc f Hm). destruct (column f) as [v |] eqn:E;
      [| contradiction].
    exists f, v. split; assumption. }
  pose proof (sum_scaled_total (connection a) Foods.calories_per_100g _ Hpk
                (Hcol _ (fun f H => proj1 H))) as H1.
  pose proof (sum_scaled_total (connection a) Foods.protein_g _ Hpk
                (Hcol _ (fun f H => proj1 (proj2 H)))) as H2.
  pose proof (sum_scaled_total (connection a) Foods.carbs_g _ Hpk
                (Hcol _ (fun f H => proj1 (proj2 (proj2 H))))) as H3.
  pose proof (sum_scaled_total (connection a) Foods.fat_g _ Hpk
                (Hcol _ (fun f H => proj2 (proj2 (proj2 H))))) as H4.
  unfold get_daily_summary. rewrite Hu, intake_of_day_records.
  destruct (sum_scaled Foods.calories_per_100g _) as [c |].
  - right. destruct H1 as [Hne H1]. split; [exact Hne |].
    destruct (sum_scaled Foods.protein_g _) as [p |]; [| contradiction].
    destruct (sum_scaled Foods.carbs_g _) as [b |]; [| contradiction].
    destruct (sum_scaled Foods.fat_g _) as [t |]; [| contradiction].
    eexists. split; [reflexivity |]. cbn. tauto.
  - left. split; [exact H1 | reflexivity].
Qed.


(** X13.  When the foods of the day's records have calories but no protein
    value, [get_daily_summary] does not return: the conversion of the NULL
    protein sum raises [TypeError]. *)
Theorem get_daily_summary_null_macro (a : app) (uid : Z) (day : date) :
  current_user a = Some uid ->
  NoDup (map Foods.food_id (food_items (connection a))) ->
  day_records (connection a) uid day <> [] ->
  (forall r, In r (day_records (connection a) uid day) ->
             exists f, select_food (connection a) (Intake.food_id r) = Some f
                       /\ Foods.calories_per_100g f <> None
                       /\ Foods.protein_g f = None) ->
  get_daily_summary a day = Py.Raise Py.TypeError.
Proof.
  intros Hu Hpk Hne Hfood.
  unfold get_daily_summary. rewrite Hu, intake_of_day_records.
  assert (Hc : forall r, In r (day_records (connection a) uid day) ->
                         exists f v,
                           select_food (connection a) (Intake.food_id r)
                           = Some f
                           /\ Foods.calories_per_100g f = Some v).
  { intros r Hr. destruct (Hfood r Hr) as (f & Hf & Hcal & _).
    destruct (Foods.calories_per_100g f) as [v |] eqn:E; [| contradiction].
    exists f, v. split; assumption. }
  pose proof (sum_scaled_total (connection a) Foods.calories_per_100g _ Hpk Hc)
    as H1.
  destruct (sum_scaled Foods.calories_per_100g _) as [c |];
    [| contradiction].
  assert (Hp : sum_scaled Foods.protein_g
                 (flat_map
                    (fun t1 =>
                       map (pair t1)
                           (filter
                              (fun t2 =>
                                 (Intake.food_id t1 =? Foods.food_id t2)%Z)
                              (food_items (connection a))))
                    (day_records (connection a) uid day))
               = None).
  { clear H1 Hne Hc. revert Hfood.
    induction (day_records (connection a) uid day) as [| r rows IH];
      intros Hfood; [reflexivity |].
    destruct (Hfood r (or_introl eq_refl)) as (f & Hf & _ & Hnull).
    cbn [flat_map].
    rewrite (filter_food_id_unique _ _ f Hpk Hf).
    cbn [map List.app]. unfold sum_scaled in *. cbn [map sql_sum].
    rewrite Hnull. cbn [sql_div sql_mul].
    apply IH. intros r' Hr'. apply Hfood. right. exact Hr'. }
  rewrite Hp. reflexivity.
Qed.

(** ** The intake table under [log_daily_intake] *)

Lemma same_key_intake_key (r new : Intake.row) :
  Intake.same_key r new = true <-> intake_key r = intake_key new.
Proof.
  rewrite same_key_fields. unfold intake_key. split.
  - intros (-> & -> & -> & ->). reflexivity.
  - intros H. injection H as -> -> -> ->. tauto.
Qed.

(** The keys of the table after the statement: unchanged when the key was
    there, one more at the end when it was not. *)
Lemma upsert_intake_keys (rows : list Intake.row) (new : Intake.row) :
  (In (intake_key new) (map intake_key rows)
   /\ map intake_key (upsert_intake rows new) = map intake_key rows)
  \/ (~ In (intake_key new) (map intake_key rows)
      /\ map intake_key (upsert_intake rows new)
         = map intake_key rows ++ [intake_key new]).
Proof.
  induction rows as [| r rows IH]; cbn [upsert_intake map].
  - right. split; [intros [] | reflexivity].
  - destruct (Intake.same_key r new) eqn:K.
    + left. apply same_key_intake_key in K. split; [left; exact K |].
      cbn [map]. f_equal.
    + assert (Hne : intake_key r <> intake_key new).
      { intros E. apply same_key_intake_key in E. congruence. }
      destruct IH as [[Hin E] | [Hn E]].
      * left. split; [right; exact Hin |]. cbn [map]. rewrite E. reflexivity.
      * right. split.
        -- intros [H | H]; [exact (Hne H) | exact (Hn H)].
        -- cbn [map List.app]. rewrite E. reflexivity.
Qed.

(** X14.  [log_daily_intake] refuses without touching anything when nobody
    is logged in, when the food id is unknown, when no date is given and
    when the date lies in the future; whenever it returns, only the intake
    table can have changed, by at most one row, and a table with one row per
    (user, food, date, meal) key still has one row per key. *)
Theorem log_daily_intake_guards_and_key (a : app) (today : date) (fid : Z)
        (q : Q) (idx : Z) (intake_date : option date) :
  (current_user a = None \/ select_food (connection a) fid = None ->
   log_daily_intake a today fid q idx intake_date = Py.Ok a)
  /\ (forall meal : string,
         Py.index Config.MEAL_TYPES (idx - 1) = Py.Ok meal ->
         intake_date = None
         \/ (exists day, intake_date = Some day /\ (today < day)%Z) ->
         log_daily_intake a today fid q idx intake_date = Py.Ok a)
  /\ (forall a' : app,
         log_daily_intake a today fid q idx intake_date = Py.Ok a' ->
         current_user a' = current_user a
         /\ users (connection a') = users (connection a)
         /\ food_items (connection a') = food_items (connection a)
         /\ weight_tracking (connection a') = weight_tracking (connection a)
         /\ (List.length (daily_intake (connection a))
             <= List.length (daily_intake (connection a'))
             <= S (List.length (daily_intake (connection a))))%nat
         /\ (unique_intake (daily_intake (connection a)) ->
             unique_intake (daily_intake (connection a')))).
Proof.
  split; [| split].
  - unfold log_daily_intake. intros [-> | H]; [reflexivity |].
    destruct (current_user a); [rewrite H |]; reflexivity.
  - intros meal Hm H. unfold log_daily_intake.
    destruct (current_user a); [| reflexivity].
    destruct (select_food (connection a) fid); [| reflexivity].
    rewrite Hm. cbn [Py.bind].
    destruct H as [-> | (day & -> & Hlt)]; [reflexivity |].
    apply Z.ltb_lt in Hlt. rewrite Hlt. reflexivity.
  - intros a' Hlog.
    destruct (log_daily_intake_outcome _ _ _ _ _ _ _ Hlog)
      as [-> | (uid & food & meal & day & _ & _ & _ & _ & _ & ->)].
    + repeat split; try reflexivity; try lia. tauto.
    + cbn [with_daily_intake connection current_user users food_items
           weight_tracking daily_intake].
      repeat split.
      * destruct (upsert_intake_keys (daily_intake (connection a))
                    (Intake.mk uid fid q day meal)) as [[_ E] | [_ E]];
          apply (f_equal (@List.length _)) in E;
          rewrite ?length_app, !length_map in E; cbn in E; lia.
      * destruct (upsert_intake_keys (daily_intake (connection a))
                    (Intake.mk uid fid q day meal)) as [[_ E] | [_ E]];
          apply (f_equal (@List.length _)) in E;
          rewrite ?length_app, !length_map in E; cbn in E; lia.
      * unfold unique_intake. intros Hnd.
        destruct (upsert_intake_keys (daily_intake (connection a))
                    (Intake.mk uid fid q day meal)) as [[_ E] | [Hn E]];
          rewrite E; [exact Hnd |].
        apply NoDup_app; [exact Hnd | repeat constructor; intros [] |].
        intros k Hk [<- | []]. exact (Hn Hk).
Qed.

(** ** The weight table under [add_weight_entry_internal] *)

Lemma upsert_weight_dates (rows : list Weights.row) (new : Weights.row) :
  (In (Weights.recorded_date new) (map Weights.recorded_date rows)
   /\ map Weights.recorded_date (upsert_weight rows new)
      = map Weights.recorded_date rows)
  \/ (~ In (Weights.recorded_date new) (map Weights.recorded_date rows)
      /\ map Weights.recorded_date (upsert_weight rows new)
         = map Weights.recorded_date rows ++ [Weights.recorded_date new]).
Proof.
  induction rows as [| r rows IH]; cbn [upsert_weight map].
  - right. split; [intros [] | reflexivity].
  - unfold Weights.same_key.
    destruct (Z.eqb_spec (Weights.recorded_date r) (Weights.recorded_date new))
      as [K | K].
    + left. split; [left; exact K | reflexivity].
    + destruct IH as [[Hin E] | [Hn E]].
      * left. split; [right; exact Hin |]. cbn [map]. rewrite E. reflexivity.
      * right. split.
        -- intros [H | H]; [exact (K H) | exact (Hn H)].
        -- cbn [map List.app]. rewrite E. reflexivity.
Qed.

(** The entry of another date is not touched. *)
Lemma upsert_weight_other_date (rows : list Weights.row) (new : Weights.row)
      (day : date) :
  Weights.recorded_date new <> day ->
  find (fun r => (Weights.recorded_date r =? day)%Z) (upsert_weight rows new)
  = find (fun r => (Weights.recorded_date r =? day)%Z) rows.
Proof.
  intros Hne. induction rows as [| r rows IH]; cbn [upsert_weight find].
  - apply Z.eqb_neq in Hne. rewrite Hne. reflexivity.
  - unfold Weights.same_key.
    destruct (Z.eqb_spec (Weights.recorded_date r) (Weights.recorded_date new))
      as [K | K]; cbn [find].
    + cbn [Weights.set_weight_bmi Weights.recorded_date].
      assert (E : (Weights.recorded_date r =? day)%Z = false)
        by (apply Z.eqb_neq; congruence).
      rewrite E. reflexivity.
    + rewrite IH. reflexivity.
Qed.

(** An entry already there for the date keeps its owner. *)
Lemma upsert_weight_owner (rows : list Weights.row) (new r : Weights.row) :
  find (fun r => (Weights.recorded_date r =? Weights.recorded_date new)%Z) rows
  = Some r ->
  find (fun r => (Weights.recorded_date r =? Weights.recorded_date new)%Z)
       (upsert_weight rows new)
  = Some (Weights.set_weight_bmi r (Weights.weight_kg new) (Weights.bmi new)).
Proof.
  induction rows as [| r0 rows IH]; cbn [upsert_weight find];
    [discriminate |].
  unfold Weights.same_key.
  destruct (Weights.recorded_date r0 =? Weights.recorded_date new)%Z eqn:K.
  - intros H. injection H as <-.
    cbn [find Weights.set_weight_bmi Weights.recorded_date]. rewrite K.
    reflexivity.
  - intros H. cbn [find]. rewrite K. exact (IH H).
Qed.

(** The outcome of [add_weight_entry_internal]: nothing, or the upsert and
    the update of the profile. *)
Lemma add_weight_entry_internal_outcome (d : db) (uid : Z) (w : Q)
      (day : date) :
  add_weight_entry_internal d uid w day = Py.Ok d
  \/ exists (user : Users.row) (h : Q),
       select_user d uid = Some user
       /\ Users.height_cm user = Some h
       /\ ~ h == 0
       /\ add_weight_entry_internal d uid w day
          = Py.Ok (mk_db (update_user_weight (users d) w uid) (food_items d)
                         (daily_intake d)
                         (upsert_weight (weight_tracking d)
                            (Weights.mk uid w
                               (Some (Py.round_ndigits
                                        (w / ((h / 100) ^ 2)) 2))
                               day))).
Proof.
  unfold add_weight_entry_internal.
  destruct (select_user d uid) as [user |]; [| left; reflexivity].
  destruct (Users.height_cm user) as [h |] eqn:Hh; [| left; reflexivity].
  cbn [truthy_decimal]. destruct (Qeq_bool h 0) eqn:E;
    [left; reflexivity |].
  right. exists user, h. split; [reflexivity |]. split; [exact Hh |].
  split.
  - intros H. apply Qeq_bool_iff in H. congruence.
  - cbn [negb py_float Py.bind]. rewrite (calculate_bmi_defined w h E).
    reflexivity.
Qed.

(** X15.  [add_weight_entry_internal] never raises: the division by the
    squared height is only reached with a height that is not zero.  For an
    unknown user, and for a profile whose height is NULL or zero, it changes
    nothing; it never touches the food and intake tables. *)
Theorem add_weight_entry_internal_never_raises (d : db) (uid : Z) (w : Q)
        (day : date) :
  exists d' : db,
    add_weight_entry_internal d uid w day = Py.Ok d'
    /\ food_items d' = food_items d
    /\ daily_intake d' = daily_intake d
    /\ (select_user d uid = None -> d' = d)
    /\ (forall user : Users.row,
           select_user d uid = Some user ->
           Users.height_cm user = None \/ Users.height_cm user = Some 0 ->
           d' = d).
Proof.
  destruct (add_weight_entry_internal_outcome d uid w day)
    as [H | (user & h & Hu & Hh & Hnz & H)].
  - exists d. rewrite H. repeat split; reflexivity.
  - eexists. split; [exact H |]. cbn [food_items daily_intake].
    split; [reflexivity |]. split; [reflexivity |]. split.
    + intros Hn. congruence.
    + intros user' Hu' [Hnull | Hzero].
      * rewrite Hu in Hu'. injection Hu' as <-. congruence.
      * rewrite Hu in Hu'. injection Hu' as <-. rewrite Hh in Hzero.
        injection Hzero as ->. exfalso. apply Hnz. reflexivity.
Qed.


(** X17.  Recording a weight keeps one entry per date in the weight table,
    adds at most one entry, and leaves the entry of every other date as it
    was. *)
Theorem add_weight_entry_internal_one_per_date (d d' : db) (uid : Z) (w : Q)
        (day : date) :
  add_weight_entry_internal d uid w day = Py.Ok d' ->
  (unique_dates (weight_tracking d) -> unique_dates (weight_tracking d'))
  /\ (List.length (weight_tracking d) <= List.length (weight_tracking d')
      <= S (List.length (weight_tracking d)))%nat
  /\ (forall other : date,
         other <> day -> weight_entry d' other = weight_entry d other).
Proof.
  intros Hadd.
  destruct (add_weight_entry_internal_outcome d uid w day)
    as [H | (user & h & _ & _ & _ & H)];
    rewrite H in Hadd; injection Hadd as <-.
  - split; [tauto |]. split; [lia | reflexivity].
  - cbn [weight_tracking]. unfold weight_entry. cbn [weight_tracking].
    set (new := Weights.mk uid w _ day).
    split; [| split].
    + unfold unique_dates. intros Hnd.
      destruct (upsert_weight_dates (weight_tracking d) new)
        as [[_ E] | [Hn E]]; rewrite E; [exact Hnd |].
      apply NoDup_app; [exact Hnd | repeat constructor; intros [] |].
      intros k Hk [<- | []]. exact (Hn Hk).
    + destruct (upsert_weight_dates (weight_tracking d) new)
        as [[_ E] | [_ E]];
        apply (f_equal (@List.length _)) in E;
        rewrite ?length_app, !length_map in E; cbn in E; lia.
    + intros other Hne. apply upsert_weight_other_date.
      cbn [new Weights.recorded_date]. congruence.
Qed.

(** ** Recording a weight ([add_weight_entry]) *)


(** ** Registration ([register_user]), continued *)

Lemma choose_goal_type_valid (inputs rest : list string) (goal : string) :
  choose_goal_type inputs = Py.Ok (goal, rest) ->
  In goal [ "lose"; "maintain"; "gain" ]%string.
Proof.
  unfold choose_goal_type, choose.
  destruct (get_choice inputs _) as [[c rest'] |] eqn:E; [| discriminate].
  apply get_choice_in_options in E. cbn [Py.bind fst snd].
  cbn [In] in E.
  destruct E as [<- | [<- | [<- | []]]];
    cbn; intros H; injection H as <- _; cbn [In]; tauto.
Qed.

Lemma get_choice_only_EOFError (inputs options : list string) (e : Py.exn) :
  get_choice inputs options = Py.Raise e -> e = Py.EOFError.
Proof.
  induction inputs as [| line inputs IH]; cbn [get_choice].
  - intros H. injection H as <-. reflexivity.
  - destruct (Py.contains options (Py.strip line)); [discriminate | exact IH].
Qed.

(** X19.  The menus of the registration cannot fail on their dictionaries:
    reading the activity level or the goal type only ever ends in
    [EOFError], and with a level and a goal read from the menus the goal
    computation returns a number, never a [KeyError]. *)
Theorem register_user_goal_never_KeyError (weight height : Q) (age : Z)
        (gender : string) (inputs1 inputs2 : list string) :
  match choose_activity_level inputs1, choose_goal_type inputs2 with
  | Py.Ok (level, _), Py.Ok (goal, _) =>
      exists n : Z,
        register_user_goal weight height age gender level goal = Py.Ok n
  | Py.Raise e, _ => e = Py.EOFError
  | _, Py.Raise e => e = Py.EOFError
  end.
Proof.
  destruct (choose_activity_level inputs1) as [[level rest1] | e1] eqn:E1.
  - destruct (choose_goal_type inputs2) as [[goal rest2] | e2] eqn:E2.
    + apply choose_activity_level_valid in E1.
      apply choose_goal_type_valid in E2. cbn [In] in E1, E2.
      destruct E1 as [<- | [<- | [<- | [<- | [<- | []]]]]];
        destruct E2 as [<- | [<- | [<- | []]]];
        eexists; reflexivity.
    + revert E2. unfold choose_goal_type, choose.
      destruct (get_choice inputs2 _) as [[c rest] |] eqn:G;
        cbn [Py.bind fst snd].
      * apply get_choice_in_options in G. cbn [In] in G.
        destruct G as [<- | [<- | [<- | []]]]; discriminate.
      * intros H. injection H as <-.
        exact (get_choice_only_EOFError _ _ _ G).
  - revert E1. unfold choose_activity_level, choose.
    destruct (get_choice inputs1 _) as [[c rest] |] eqn:G;
      cbn [Py.bind fst snd].
    + apply get_choice_in_options in G. cbn [In] in G.
      destruct G as [<- | [<- | [<- | [<- | [<- | []]]]]]; discriminate.
    + intros H. injection H as <-.
      exact (get_choice_only_EOFError _ _ _ G).
Qed.

Lemma trunc_toward_zero_monotone (x y : Q) :
  x <= y -> (trunc_toward_zero x <= trunc_toward_zero y)%Z.
Proof.
  intros H. unfold trunc_toward_zero.
  destruct (Py.Qltb x 0) eqn:Ex, (Py.Qltb y 0) eqn:Ey.
  - apply Qceiling_resp_le. exact H.
  - apply Qltb_lt in Ex. apply Qltb_ge in Ey.
    assert (H1 : (Qceiling x <= 0)%Z).
    { change 0%Z with (Qceiling 0). apply Qceiling_resp_le. lra. }
    assert (H2 : (0 <= Qfloor y)%Z).
    { change 0%Z with (Qfloor 0). apply Qfloor_resp_le. exact Ey. }
    lia.
  - apply Qltb_ge in Ex. apply Qltb_lt in Ey. lra.
  - apply Qfloor_resp_le. exact H.
Qed.

(** X20.  The goal of registration has no floor: for the same TDEE the goals
    for lose, maintain and gain are in this order, and the goal for lose is
    negative as soon as the TDEE is 499 or less. *)
Theorem register_user_daily_calorie_goal_no_floor (tdee : Q) :
  exists lose maintain gain : Z,
    register_user_daily_calorie_goal tdee "lose" = Py.Ok lose
    /\ register_user_daily_calorie_goal tdee "maintain" = Py.Ok maintain
    /\ register_user_daily_calorie_goal tdee "gain" = Py.Ok gain
    /\ (lose <= maintain <= gain)%Z
    /\ (tdee <= 499 -> (lose < 0)%Z).
Proof.
  unfold register_user_daily_calorie_goal.
  cbn [Py.getitem Config.GOAL_CALORIE_ADJUSTMENT Py.bind String.eqb Ascii.eqb
       Bool.eqb].
  eexists _, _, _. split; [reflexivity |]. split; [reflexivity |].
  split; [reflexivity |]. rewrite !int_trunc_toward_zero. split; [split |].
  - apply trunc_toward_zero_monotone. unfold inject_Z. lra.
  - apply trunc_toward_zero_monotone. unfold inject_Z. lra.
  - intros H.
    assert (Hm : (trunc_toward_zero (tdee + inject_Z (-500))
                  <= trunc_toward_zero (-1))%Z).
    { apply trunc_toward_zero_monotone. unfold inject_Z. lra. }
    change (trunc_toward_zero (-1)) with (-1)%Z in Hm. lia.
Qed.

(** ** The stored goal and an incomplete profile *)

(** X21.  For an unknown user [calculate_daily_calories] returns [None].
    For a profile whose weight, height or age is NULL a stored goal that is
    not zero is still returned, while without such a goal the lookup raises
    [TypeError] instead of returning. *)
Theorem calculate_daily_calories_incomplete_profile (d : db) (uid : Z) :
  (select_user d uid = None -> calculate_daily_calories d uid = Py.Ok None)
  /\ (forall (user : Users.row) (g : Z),
         select_user d uid = Some user ->
         Users.daily_calorie_goal user = Some g ->
         g <> 0%Z ->
         calculate_daily_calories d uid = Py.Ok (Some g))
  /\ (forall user : Users.row,
         select_user d uid = Some user ->
         Users.daily_calorie_goal user = None
         \/ Users.daily_calorie_goal user = Some 0%Z ->
         Users.weight_kg user = None
         \/ Users.height_cm user = None
         \/ Users.age user = None ->
         calculate_daily_calories d uid = Py.Raise Py.TypeError).
Proof.
  unfold calculate_daily_calories. split; [| split].
  - intros ->. reflexivity.
  - intros user g -> -> Hg. cbn [truthy_int]. apply Z.eqb_neq in Hg.
    rewrite Hg. reflexivity.
  - intros user Hu Hg Hnull. rewrite Hu.
    apply truthy_int_false in Hg. rewrite Hg.
    unfold calculate_bmr. rewrite Hu.
    destruct (Users.weight_kg user) as [w |]; [| reflexivity].
    destruct (Users.height_cm user) as [h |]; [| reflexivity].
    destruct (Users.age user) as [n |]; [| reflexivity].
    destruct Hnull as [H | [H | H]]; discriminate H.
Qed.

(** ** Further concrete instances *)


Lemma bmr_monotone_70_to_80 :
  calculate_bmr_static 70 175 40 "Other"
  <= calculate_bmr_static 80 180 30 "Other".
Proof.
  apply (calculate_bmr_static_monotone 70 80 175 180 40 30 "Other").
  - unfold Qle. cbn. lia.
  - unfold Qle. cbn. lia.
  - lia.
Defined.

Lemma get_positive_int_sample_age :
  (1 <= 42)%Z
  /\ (forall m : Z, Some 150%Z = Some m -> m <> 0%Z -> (42 <= m)%Z).
Proof.
  destruct (get_positive_int_bounds sample_int_of_line
              [ "abc"; "0"; "200"; "42"; "7" ]%string [ "7"%string ]
              1 42 (Some 150%Z) eq_refl) as (H1 & H2 & _).
  split; [exact H1 | exact H2].
Defined.

Lemma validate_email_sample :
  validate_email "user" = Py.Ok false
  /\ validate_email "user@example.com" = Py.Ok true
  /\ validate_email "user@example@x.org" = Py.Ok false.
Proof.
  destruct (validate_email_domain_piece "user" "example.com" "x"
              eq_refl eq_refl) as (H1 & H2 & _).
  destruct (validate_email_domain_piece "user" "example" "x.org"
              eq_refl eq_refl) as (_ & _ & H3 & _).
  split; [exact H1 |]. split; [exact H2 | exact H3].
Defined.

Lemma print_progress_bar_sample :
  List.length (fst (fst (print_progress_bar 1800 2000 30))) = 30%nat.
Proof.
  assert (Hc : 0 <= 1800) by (unfold Qle; cbn; lia).
  assert (Hw : (0 <= 30)%Z) by lia.
  exact (proj1 (print_progress_bar_width 1800 2000 30 Hc Hw)).
Defined.

Lemma log_other_day_sample :
  exists a' : app,
    log_daily_intake sample_app 101%Z 3 200 4 (Some 101%Z) = Py.Ok a'
    /\ get_daily_summary a' 100%Z = get_daily_summary sample_app 100%Z.
Proof.
  eexists. split; [reflexivity |].
  assert (Hne : 101%Z <> 100%Z) by discriminate.
  exact (proj1 (log_daily_intake_other_day sample_app _ 101%Z 3 200 4 101%Z
                  100%Z 1 2 eq_refl eq_refl) Hne).
Defined.

Lemma sample_orange_complete :
  complete_food (Foods.mk 3 "Orange" (Some 47) (Some 0.9) (Some 12) (Some 0.1)).
Proof. unfold complete_food. cbn. repeat split; discriminate. Qed.


Lemma get_daily_summary_null_protein_sample :
  get_daily_summary sample_app_null_protein 100%Z = Py.Raise Py.TypeError.
Proof.
  apply (get_daily_summary_null_macro sample_app_null_protein 1 100%Z).
  - reflexivity.
  - cbn. repeat constructor. intros [].
  - cbn. discriminate.
  - cbn. intros r [<- | []]. eexists. split; [reflexivity |].
    cbn. split; [discriminate | reflexivity].
Defined.

Lemma sample_height_not_zero : ~ 175 == 0.
Proof. unfold Qeq. cbn. lia. Qed.


Lemma one_per_date_sample :
  exists d' : db,
    add_weight_entry_internal sample_db_weights 1 72.5 99%Z = Py.Ok d'
    /\ List.length (weight_tracking d') = 2%nat
    /\ weight_entry d' 100%Z = weight_entry sample_db_weights 100%Z.
Proof.
  eexists. split; [reflexivity |].
  destruct (add_weight_entry_internal_one_per_date sample_db_weights _ 1 72.5
              99%Z eq_refl) as (_ & _ & Hother).
  split; [reflexivity |].
  apply Hother. discriminate.
Defined.
